(** * Daily CI status report: a shallow embedding of
      [.github/workflows/tools/daily-status.py]

    The development follows the script top to bottom: the [Outcome]
    enumeration and its two classifiers, the record types of the report
    model, the renderer [get_subject_body] with its outcome counter, and
    the loops of [main] that build client and Appveyor records.

    Python values are modelled as follows: [str] as [string], [int] as [Z],
    [list] as [list], [set[str]] as [gset string], a [Counter] and a
    [dict] as association lists in insertion order (the order is visible
    in the subject line and in the rendered body), and a raised exception
    as the [Raise] branch of [result]. *)

From Stdlib Require Import ZArith Ascii String List Bool Lia.
From stdpp Require Import base decidable option list sets gmap strings pretty.

#[local] Set Warnings "-clear-no-such-hyp".

Open Scope string_scope.
Open Scope Z_scope.

(** ** Exceptions *)

(** The exceptions that the modelled code can raise.  A [ValueError]
    carries the fixed part of its message and the offending value, which
    the script formats with [!r]. *)
Inductive exn : Type :=
| ValueError (msg : string) (arg : string)
| AttributeError (cls : string) (attr : string)
| AssertionError
| TypeError (msg : string)
| HTTPError (url : string).

Inductive result (A : Type) : Type :=
| Ok (a : A)
| Raise (e : exn).
Arguments Ok {A} a.
Arguments Raise {A} e.

Definition bind {A B : Type} (m : result A) (k : A -> result B) : result B :=
  match m with
  | Ok a => k a
  | Raise e => Raise e
  end.

Notation "'let*' x ':=' m 'in' k" := (bind m (fun x => k))
  (at level 10, x pattern, m at level 100, k at level 200).

(** [[f(x) for x in xs]]: the comprehension stops at the first exception. *)
Fixpoint mapM {A B : Type} (f : A -> result B) (xs : list A) : result (list B) :=
  match xs with
  | [] => Ok []
  | x :: xs' =>
      let* y := f x in
      let* ys := mapM f xs' in
      Ok (y :: ys)
  end.

(** ** [class Outcome(Enum)] *)

Inductive Outcome : Type := PASS | FAIL | ERROR | INCOMPLETE.

#[global] Instance Outcome_eq_dec : EqDecision Outcome.
Proof. solve_decision. Defined.

(** [Outcome.value] *)
Definition value (oc : Outcome) : string :=
  match oc with
  | PASS => "PASSED"
  | FAIL => "FAILED"
  | ERROR => "ERRORED"
  | INCOMPLETE => "INCOMPLETE"
  end.

(** Attribute lookup on the class [Outcome]: the enumeration defines the
    four members above and nothing else, so any other name raises
    [AttributeError]. *)
Definition Outcome_getattr (name : string) : result Outcome :=
  if String.eqb name "PASS" then Ok PASS
  else if String.eqb name "FAIL" then Ok FAIL
  else if String.eqb name "ERROR" then Ok ERROR
  else if String.eqb name "INCOMPLETE" then Ok INCOMPLETE
  else Raise (AttributeError "Outcome" name).

(** [x in {...}] for a set literal of strings. *)
Definition str_in (x : string) (xs : list string) : bool :=
  existsb (String.eqb x) xs.

(** [Outcome.from_conclusion] *)
Definition from_conclusion (concl : string) : result Outcome :=
  if String.eqb concl "success" then Outcome_getattr "PASS"
  else if String.eqb concl "failure" then Outcome_getattr "FAIL"
  else if String.eqb concl "timed_out" then Outcome_getattr "ERRROR"
  else if str_in concl ["neutral"; "action_required"; "cancelled"; "skipped"; "stale"]
       then Outcome_getattr "INCOMPLETE"
  else Raise (ValueError "Unknown GitHub workflow conclusion: " concl).

(** [Outcome.from_appveyor_status] *)
Definition from_appveyor_status (status : string) : result Outcome :=
  if String.eqb status "success" then Outcome_getattr "PASS"
  else if String.eqb status "failed" then Outcome_getattr "FAIL"
  else if String.eqb status "cancelled" then Outcome_getattr "INCOMPLETE"
  else Raise (ValueError "Unknown Appveyor status: " status).

(** The double-quote character, and the line feed. *)
Definition dq : string := String (ascii_of_nat 34) EmptyString.
Definition nl : string := String (ascii_of_nat 10) EmptyString.

(** [Outcome.as_html] *)
Definition Outcome_as_html (oc : Outcome) : string :=
  match oc with
  | PASS => "<span style=" +:+ dq +:+ "color: green" +:+ dq +:+ ">PASS</span>"
  | FAIL => "<span style=" +:+ dq +:+ "color: red" +:+ dq +:+ ">FAIL</span>"
  | ERROR =>
      "<span style=" +:+ dq +:+ "color: red; text-weight: bold" +:+ dq +:+ ">ERROR</span>"
  | INCOMPLETE => "<span style=" +:+ dq +:+ "color: grey" +:+ dq +:+ ">&#x2014;</span>"
  end.

(** ** Strings *)

(** [s.replace(c, by)] for a one-character pattern [c]. *)
Fixpoint replace_char (c : ascii) (by_ : string) (s : string) : string :=
  match s with
  | EmptyString => EmptyString
  | String a s' =>
      (if Ascii.eqb a c then by_ else String a EmptyString) +:+ replace_char c by_ s'
  end.

(** [xml.sax.saxutils.escape] with no extra entities: the ampersand is
    replaced first, then the two angle brackets. *)
Definition escape (data : string) : string :=
  replace_char "<" "&lt;" (replace_char ">" "&gt;" (replace_char "&" "&amp;" data)).

(** [sep.join(xs)] *)
Fixpoint join (sep : string) (xs : list string) : string :=
  match xs with
  | [] => EmptyString
  | [x] => x
  | x :: xs' => x +:+ sep +:+ join sep xs'
  end.

(** ** Timestamps *)

(** A [datetime]: the wall-clock reading in microseconds and, for an
    aware value, the offset of its time zone from UTC in microseconds
    ([None] for a naive value). *)
Record datetime : Type := { wall : Z; utcoffset : option Z }.

(** [WINDOW = timedelta(days=1)], in microseconds. *)
Definition WINDOW : Z := 86400 * 1000000.

(** [cutoff = datetime.now(timezone.utc) - WINDOW] *)
Definition cutoff_at (now_utc : Z) : datetime :=
  {| wall := now_utc - WINDOW; utcoffset := Some 0 |}.

(** [ensure_aware] *)
Definition ensure_aware (dt : datetime) : datetime :=
  match utcoffset dt with
  | None => {| wall := wall dt; utcoffset := Some 0 |}
  | Some _ => dt
  end.

(** [a <= b] on datetimes: two aware values compare as instants, two
    naive values by their readings, and a naive with an aware value
    raises [TypeError]. *)
Definition datetime_le (a b : datetime) : result bool :=
  match utcoffset a, utcoffset b with
  | Some oa, Some ob => Ok (wall a - oa <=? wall b - ob)
  | None, None => Ok (wall a <=? wall b)
  | _, _ => Raise (TypeError "can't compare offset-naive and offset-aware datetimes")
  end.

(** ** Constants *)

Definition WORKFLOW_REPO : string := "datalad/git-annex".
Definition WORKFLOWS : list string :=
  ["build-ubuntu.yaml"; "build-macos.yaml"; "build-windows.yaml"].
Definition CLIENTS_REPO : string := "datalad/git-annex-ci-client-jobs".
Definition CLIENTS_WORKFLOW : string := "handle-result.yaml".
Definition APPVEYOR_PROJECT : string := "mih/git-annex".

(** ** [collections.Counter] over outcomes *)

(** Keys in insertion order with their counts. *)
Definition Counter : Type := list (Outcome * nat).

(** [self.get(k, 0)] *)
Fixpoint counter_get (c : Counter) (k : Outcome) : nat :=
  match c with
  | [] => 0%nat
  | (k', m) :: c' => if decide (k' = k) then m else counter_get c' k
  end.

(** [self[k] = n + self.get(k, 0)]: an existing key keeps its place, a
    new key goes last. *)
Fixpoint counter_add (c : Counter) (k : Outcome) (n : nat) : Counter :=
  match c with
  | [] => [(k, n)]
  | (k', m) :: c' =>
      if decide (k' = k) then (k', (n + m)%nat) :: c'
      else (k', m) :: counter_add c' k n
  end.

(** [Counter(iterable)] *)
Definition Counter_of (xs : list Outcome) : Counter :=
  fold_left (fun c x => counter_add c x 1%nat) xs [].

(** [self.update(other)] for another counter. *)
Definition Counter_update (self other : Counter) : Counter :=
  fold_left (fun c kn => counter_add c (fst kn) (snd kn)) other self.

(** The sum of the counts stored under the key [k]. *)
Definition counter_total (c : Counter) (k : Outcome) : nat :=
  sum_list_with (fun kn => if decide (fst kn = k) then snd kn else 0%nat) c.

(** Truth value of a counter: it has at least one key. *)
Definition Counter_bool (c : Counter) : bool :=
  match c with
  | [] => false
  | _ :: _ => true
  end.

(** ** The report model *)

Module JobStatus.
Record t : Type := {
  name : string;
  url : string;
  timestamp : datetime;
  outcome : Outcome
}.
End JobStatus.

Module WorkflowStatus.
Record t : Type := {
  file : string;
  name : string;
  build_id : Z;
  url : string;
  timestamp : datetime;
  outcome : Outcome;
  jobs : list JobStatus.t
}.

(** [WorkflowStatus.get_summary] *)
Definition get_summary (self : t) : Counter :=
  Counter_of (map JobStatus.outcome (jobs self)).
End WorkflowStatus.

Module ClientStatus.
Record t : Type := {
  client_id : string;
  build_id : Z;
  timestamp : datetime;
  artifact_url : string;
  tests : list (string * Outcome)
}.

(** [ClientStatus.get_summary]: the counter of [tests.values()]. *)
Definition get_summary (self : t) : Counter :=
  Counter_of (map snd (tests self)).
End ClientStatus.

Module ResultProcessError.
Record t : Type := {
  client_id : string;
  build_id : Z;
  timestamp : datetime;
  url : string
}.

(** [ResultProcessError.get_summary] *)
Definition get_summary (self : t) : Counter :=
  Counter_of [ERROR].
End ResultProcessError.

(** An element of [client_runs: list[ClientStatus | ResultProcessError]]. *)
Inductive ClientEntry : Type :=
| Status (c : ClientStatus.t)
| ProcessError (e : ResultProcessError.t).

Module AppveyorJob.
Record t : Type := {
  build_id : Z;
  id : string;
  name : string;
  outcome : Outcome
}.

(** The [url] property. *)
Definition url (self : t) : string :=
  "https://ci.appveyor.com/project/" +:+ APPVEYOR_PROJECT +:+ "/builds/"
    +:+ pretty (build_id self) +:+ "/job/" +:+ id self.

(** [AppveyorJob.as_html] *)
Definition as_html (self : t) : string :=
  Outcome_as_html (outcome self) +:+ " <a href=" +:+ dq +:+ url self +:+ dq +:+ ">"
    +:+ escape (name self) +:+ "</a>".
End AppveyorJob.

Module AppveyorBuild.
Record t : Type := {
  id : Z;
  version : string;
  timestamp : datetime;
  outcome : Outcome;
  jobs : list AppveyorJob.t
}.

(** The [url] property. *)
Definition url (self : t) : string :=
  "https://ci.appveyor.com/project/" +:+ APPVEYOR_PROJECT +:+ "/builds/"
    +:+ pretty (id self).

(** [AppveyorBuild.get_summary] *)
Definition get_summary (self : t) : Counter :=
  Counter_of (map AppveyorJob.outcome (jobs self)).
End AppveyorBuild.

Module DailyStatus.
Record t : Type := {
  github_runs : list WorkflowStatus.t;
  client_runs : list ClientEntry;
  all_clients : gset string;
  appveyor_builds : list AppveyorBuild.t
}.
End DailyStatus.

(** [cstatus.client_id] and [cstatus.get_summary()] on either kind of
    client entry. *)
Definition client_id (cstatus : ClientEntry) : string :=
  match cstatus with
  | Status c => ClientStatus.client_id c
  | ProcessError e => ResultProcessError.client_id e
  end.

Definition client_get_summary (cstatus : ClientEntry) : Counter :=
  match cstatus with
  | Status c => ClientStatus.get_summary c
  | ProcessError e => ResultProcessError.get_summary e
  end.

(** ** The renderer *)

(** Formatting a [datetime] with [str] is left to the standard library
    of the script's language; the renderer takes it as [str_datetime]. *)
Section Renderer.
Variable str_datetime : datetime -> string.

(** [JobStatus.as_html] *)
Definition JobStatus_as_html (self : JobStatus.t) : string :=
  Outcome_as_html (JobStatus.outcome self) +:+ " <a href=" +:+ dq
    +:+ JobStatus.url self +:+ dq +:+ ">" +:+ escape (JobStatus.name self)
    +:+ "</a> " +:+ str_datetime (JobStatus.timestamp self).

(** [WorkflowStatus.as_html] *)
Definition WorkflowStatus_as_html (self : WorkflowStatus.t) : string :=
  let s :=
    "<p>" +:+ Outcome_as_html (WorkflowStatus.outcome self) +:+ " <a href=" +:+ dq
      +:+ WorkflowStatus.url self +:+ dq +:+ ">" +:+ escape (WorkflowStatus.name self)
      +:+ " #" +:+ pretty (WorkflowStatus.build_id self) +:+ "</a> "
      +:+ str_datetime (WorkflowStatus.timestamp self) +:+ "</p>" +:+ nl
      +:+ "<ul>" +:+ nl in
  let s :=
    fold_left (fun s j => s +:+ ("<li>" +:+ JobStatus_as_html j +:+ "</li>" +:+ nl))
      (WorkflowStatus.jobs self) s in
  s +:+ "</ul>" +:+ nl.

(** [ClientStatus.as_html] *)
Definition ClientStatus_as_html (self : ClientStatus.t) : string :=
  let s :=
    "<p>" +:+ escape (ClientStatus.client_id self) +:+ " #"
      +:+ pretty (ClientStatus.build_id self) +:+ " [<a href=" +:+ dq
      +:+ ClientStatus.artifact_url self +:+ dq +:+ ">download logs</a>] "
      +:+ str_datetime (ClientStatus.timestamp self) +:+ "</p><ul>" +:+ nl in
  let s :=
    fold_left
      (fun s item =>
         s +:+ ("<li>" +:+ Outcome_as_html (snd item) +:+ " " +:+ escape (fst item)
                  +:+ "</li>" +:+ nl))
      (ClientStatus.tests self) s in
  s +:+ "</ul>".

(** [ResultProcessError.as_html] *)
Definition ResultProcessError_as_html (self : ResultProcessError.t) : string :=
  Outcome_as_html ERROR +:+ " processing results for "
    +:+ escape (ResultProcessError.client_id self) +:+ " #"
    +:+ pretty (ResultProcessError.build_id self) +:+ " [<a href=" +:+ dq
    +:+ ResultProcessError.url self +:+ dq +:+ ">logs</a>] "
    +:+ str_datetime (ResultProcessError.timestamp self).

Definition client_as_html (cstatus : ClientEntry) : string :=
  match cstatus with
  | Status c => ClientStatus_as_html c
  | ProcessError e => ResultProcessError_as_html e
  end.

(** [AppveyorBuild.as_html] *)
Definition AppveyorBuild_as_html (self : AppveyorBuild.t) : string :=
  let s :=
    "<p>" +:+ Outcome_as_html (AppveyorBuild.outcome self) +:+ " <a href=" +:+ dq
      +:+ AppveyorBuild.url self +:+ dq +:+ ">" +:+ AppveyorBuild.version self
      +:+ "</a> " +:+ str_datetime (AppveyorBuild.timestamp self) +:+ "</p>" +:+ nl
      +:+ "<ul>" +:+ nl in
  let s :=
    fold_left (fun s j => s +:+ ("<li>" +:+ AppveyorJob.as_html j +:+ "</li>" +:+ nl))
      (AppveyorBuild.jobs self) s in
  s +:+ "</ul>" +:+ nl.

(** The state of the loops of [get_subject_body]: the body written so
    far and the counter [qtys]; the client loop also carries [seen].
    The list item written for each element has a name of its own. *)
Definition github_li (wfstatus : WorkflowStatus.t) : string :=
  "<li>" +:+ WorkflowStatus_as_html wfstatus +:+ "</li>" +:+ nl.

Definition github_step (st : string * Counter) (wfstatus : WorkflowStatus.t)
  : string * Counter :=
  let '(body, qtys) := st in
  (body +:+ github_li wfstatus,
   Counter_update qtys (WorkflowStatus.get_summary wfstatus)).

(** The [id] attribute chosen for one client entry and the new [seen]. *)
Definition client_idattr (seen : gset string) (cstatus : ClientEntry)
  : string * gset string :=
  if decide (client_id cstatus ∉ seen)
  then (" id=" +:+ dq +:+ client_id cstatus +:+ dq, seen ∪ {[client_id cstatus]})
  else (EmptyString, seen).

(** The list item written for one client entry. *)
Definition client_li (idattr : string) (cstatus : ClientEntry) : string :=
  "<li" +:+ idattr +:+ ">" +:+ client_as_html cstatus +:+ "</li>" +:+ nl.

Definition client_step (st : gset string * string * Counter) (cstatus : ClientEntry)
  : gset string * string * Counter :=
  let '(seen, body, qtys) := st in
  let '(idattr, seen) := client_idattr seen cstatus in
  (seen,
   body +:+ client_li idattr cstatus,
   Counter_update qtys (client_get_summary cstatus)).

Definition appveyor_li (build : AppveyorBuild.t) : string :=
  "<li>" +:+ AppveyorBuild_as_html build +:+ "</li>" +:+ nl.

Definition appveyor_step (st : string * Counter) (build : AppveyorBuild.t)
  : string * Counter :=
  let '(body, qtys) := st in
  (body +:+ appveyor_li build,
   Counter_update qtys (AppveyorBuild.get_summary build)).

(** The three [if]/[else] blocks of [get_subject_body], each taking and
    returning the body and the counter. *)
Definition render_github (runs : list WorkflowStatus.t) (st : string * Counter)
  : string * Counter :=
  match runs with
  | _ :: _ => fold_left github_step runs st
  | [] => (fst st +:+ ("<li>[no runs]</li>" +:+ nl), snd st)
  end.

Definition render_clients (runs : list ClientEntry) (st : string * Counter)
  : string * Counter :=
  match runs with
  | _ :: _ =>
      let '(_, body, qtys) := fold_left client_step runs (∅, fst st, snd st) in
      (body, qtys)
  | [] => (fst st +:+ ("<li>[no runs]</li>" +:+ nl), snd st)
  end.

Definition render_appveyor (builds : list AppveyorBuild.t) (st : string * Counter)
  : string * Counter :=
  match builds with
  | _ :: _ => fold_left appveyor_step builds st
  | [] => (fst st +:+ ("<li>[no builds]</li>" +:+ nl), snd st)
  end.

(** The fixed text between the blocks. *)
Definition body_open : string :=
  "<ul>" +:+ nl +:+ "<li><p>GitHub:</p>" +:+ nl +:+ "<ul>" +:+ nl.
Definition body_clients : string :=
  "</ul>" +:+ nl +:+ "</li>" +:+ nl +:+ "<li><p>Local Clients:</p>" +:+ nl +:+ "<ul>" +:+ nl.
Definition body_appveyor : string :=
  "</ul>" +:+ nl +:+ "</li>" +:+ nl +:+ "<li><p>Appveyor Builds:</p>" +:+ nl +:+ "<ul>" +:+ nl.
Definition body_close : string :=
  "</ul>" +:+ nl +:+ "</li>" +:+ nl +:+ "</ul>".

(** The first part of [get_subject_body], up to the closing of the outer
    list: the body with its three sections, and the counter [qtys]. *)
Definition render_sections (self : DailyStatus.t) : string * Counter :=
  let st : string * Counter := (body_open, []) in
  let st := render_github (DailyStatus.github_runs self) st in
  let st := (fst st +:+ body_clients, snd st) in
  let st := render_clients (DailyStatus.client_runs self) st in
  let st := (fst st +:+ body_appveyor, snd st) in
  let st := render_appveyor (DailyStatus.appveyor_builds self) st in
  (fst st +:+ body_close, snd st).

(** [set(WORKFLOWS).difference(r.file for r in self.github_runs)] *)
Definition missing_workflows (self : DailyStatus.t) : gset string :=
  list_to_set WORKFLOWS ∖ list_to_set (map WorkflowStatus.file (DailyStatus.github_runs self)).

(** [self.all_clients.difference(r.client_id for r in self.client_runs)] *)
Definition missing_clients (self : DailyStatus.t) : gset string :=
  DailyStatus.all_clients self ∖ list_to_set (map client_id (DailyStatus.client_runs self)).

(** [absent := len(missing_workflows) + len(missing_clients)] *)
Definition absent (self : DailyStatus.t) : nat :=
  (size (missing_workflows self) + size (missing_clients self))%nat.

(** The subject line for a non-empty counter, before the absence count. *)
Definition counts_subject (qtys : Counter) : string :=
  WORKFLOW_REPO +:+ " daily summary: "
    +:+ join ", " (map (fun item => pretty (snd item) +:+ " " +:+ value (fst item)) qtys).

(** The second part of [get_subject_body]: the subject. *)
Definition subject_of (self : DailyStatus.t) (qtys : Counter) : string :=
  if Counter_bool qtys then
    let subject := counts_subject qtys in
    if negb (absent self =? 0)%nat
    then subject +:+ (", " +:+ pretty (absent self) +:+ " ABSENT")
    else subject
  else WORKFLOW_REPO +:+ " daily summary: NOTHING".

(** The last part of [get_subject_body]: the document around the body. *)
Definition wrap_body (subject body : string) : string :=
  "<!DOCTYPE html>" +:+ nl
    +:+ "<html lang=" +:+ dq +:+ "en" +:+ dq +:+ ">" +:+ nl
    +:+ "<head>" +:+ nl
    +:+ "<meta http-equiv=" +:+ dq +:+ "Content-Type" +:+ dq +:+ " content=" +:+ dq
    +:+ "text/html; charset=utf-8" +:+ dq +:+ ">" +:+ nl
    +:+ "<title>" +:+ subject +:+ "</title>" +:+ nl
    +:+ "</head>" +:+ nl
    +:+ "<body>" +:+ nl
    +:+ body +:+ nl
    +:+ "</body>" +:+ nl
    +:+ "</html>".

(** [DailyStatus.get_subject_body] *)
Definition get_subject_body (self : DailyStatus.t) : string * string :=
  let '(body, qtys) := render_sections self in
  let subject := subject_of self qtys in
  (subject, wrap_body subject body).

End Renderer.

(** ** Parsing helpers used by [main] *)

Definition is_digit (c : ascii) : bool :=
  (48 <=? nat_of_ascii c)%nat && (nat_of_ascii c <=? 57)%nat.

Definition digit_value (c : ascii) : Z := Z.of_nat (nat_of_ascii c) - 48.

Definition is_newline (c : ascii) : bool := Ascii.eqb c (ascii_of_nat 10).

(** White space that [int] strips from both ends of its argument. *)
Definition is_space (c : ascii) : bool :=
  let n := nat_of_ascii c in
  ((9 <=? n)%nat && (n <=? 13)%nat) || ((28 <=? n)%nat && (n <=? 32)%nat).

Fixpoint lstrip (s : string) : string :=
  match s with
  | String c s' => if is_space c then lstrip s' else s
  | EmptyString => EmptyString
  end.

Fixpoint rstrip (s : string) : string :=
  match s with
  | EmptyString => EmptyString
  | String c s' =>
      match rstrip s' with
      | EmptyString => if is_space c then EmptyString else String c EmptyString
      | t => String c t
      end
  end.

(** The digits of a decimal literal after its sign: digits with single
    underscores between them.  [prev] tells whether the previous
    character was a digit; [acc] is the value read so far. *)
Fixpoint int_digits (prev : bool) (acc : Z) (s : string) : option Z :=
  match s with
  | EmptyString => if prev then Some acc else None
  | String c s' =>
      if is_digit c then int_digits true (10 * acc + digit_value c) s'
      else if Ascii.eqb c "_" then (if prev then int_digits false acc s' else None)
      else None
  end.

(** [int(s)] for a string [s], in base ten.  (The interpreter's optional
    cap on the number of digits of a literal is not modelled.) *)
Definition int_ (s : string) : result Z :=
  let body := rstrip (lstrip s) in
  let parsed :=
    match body with
    | String c ds =>
        if Ascii.eqb c "-" then option_map Z.opp (int_digits false 0 ds)
        else if Ascii.eqb c "+" then int_digits false 0 ds
        else int_digits false 0 body
    | EmptyString => None
    end in
  match parsed with
  | Some n => Ok n
  | None => Raise (ValueError "invalid literal for int() with base 10: " s)
  end.

(** The rest of the pattern after the first group: a hyphen, then
    [(\d+)] up to the end of the string. *)
Definition match_hyphen_digits (s : string) : option string :=
  match s with
  | String c ds =>
      if Ascii.eqb c "-" then
        match ds with
        | EmptyString => None
        | String _ _ =>
            if forallb is_digit (list_ascii_of_string ds) then Some ds else None
        end
      else None
  | EmptyString => None
  end.

(** The greedy group [(.+)] followed by the rest of the pattern: the dot
    matches any character but a line feed, the group first tries to take
    more characters and gives them back one at a time. *)
Fixpoint match_dot_plus (s : string) : option (string * string) :=
  match s with
  | EmptyString => None
  | String c s' =>
      if is_newline c then None
      else
        match match_dot_plus s' with
        | Some (g1, g2) => Some (String c g1, g2)
        | None =>
            match match_hyphen_digits s' with
            | Some g2 => Some (String c EmptyString, g2)
            | None => None
            end
        end
  end.

(** [s] without the prefix [p], when it starts with it. *)
Fixpoint strip_prefix (p s : string) : option string :=
  match p, s with
  | EmptyString, _ => Some s
  | String a p', String b s' => if Ascii.eqb a b then strip_prefix p' s' else None
  | String _ _, EmptyString => None
  end.

(** [re.fullmatch(r"result-(.+)-(\d+)", head_branch)]: the two groups. *)
Definition fullmatch_result (head_branch : string) : option (string * string) :=
  match strip_prefix "result-" head_branch with
  | Some rest => match_dot_plus rest
  | None => None
  end.

(** [s.endswith(suffix)] and [s[:-3]] *)
Definition endswith (s suffix : string) : bool :=
  (String.length suffix <=? String.length s)%nat
  && String.eqb (substring (String.length s - String.length suffix)
                   (String.length suffix) s) suffix.

Definition drop_last3 (s : string) : string :=
  substring 0 (String.length s - 3) s.

(** [tests[k] = v] on a dictionary kept in insertion order. *)
Fixpoint dict_set {V : Type} (d : list (string * V)) (k : string) (v : V)
  : list (string * V) :=
  match d with
  | [] => [(k, v)]
  | (k', v') :: d' =>
      if String.eqb k' k then (k', v) :: d' else (k', v') :: dict_set d' k v
  end.

(** ** Iteration *)

(** What a generator or a paginated list hands to a [for] loop: the
    items in order, each followed by the rest of the iteration, which ends
    normally ([Stop]), with an exception raised while producing the next
    item ([Fail]), or is cut where the model's supply of page requests
    ran out ([Pending]). *)
Inductive Gen (A : Type) : Type :=
| Stop
| Yield (a : A) (rest : Gen A)
| Fail (e : exn)
| Pending.
Arguments Stop {A}.
Arguments Yield {A} a rest.
Arguments Fail {A} e.
Arguments Pending {A}.

(** [yield from xs], then [k]. *)
Definition yield_from {A : Type} (xs : list A) (k : Gen A) : Gen A :=
  fold_right Yield k xs.

(** How the body of a loop ends: by falling through or with [continue]
    ([Continue]), or with [break]. *)
Inductive flow : Type := Continue | Break.

(** A [for] loop over [g] whose body updates the state [st]; [None] when
    the iteration is [Pending]. *)
Fixpoint for_each {A St : Type} (body : St -> A -> result (flow * St))
    (g : Gen A) (st : St) : option (result St) :=
  match g with
  | Stop => Some (Ok st)
  | Fail e => Some (Raise e)
  | Pending => None
  | Yield a rest =>
      match body st a with
      | Raise e => Some (Raise e)
      | Ok (Break, st') => Some (Ok st')
      | Ok (Continue, st') => for_each body rest st'
      end
  end.

(** ** What the remote services return *)

(** A workflow run as the hosted service's client library presents it. *)
Module Run.
Record t : Type := {
  status : string;
  event : string;
  created_at : datetime;
  conclusion : string;
  run_number : Z;
  html_url : string;
  jobs_url : string;
  artifacts_url : string;
  head_branch : string;
  check_suite_id : Z
}.
End Run.

(** An element of the [jobs] array of a run's job listing. *)
Module RawJob.
Record t : Type := {
  name : string;
  html_url : string;
  started_at : string;
  conclusion : string
}.
End RawJob.

(** An element of the [artifacts] array of a run. *)
Module Artifact.
Record t : Type := { id : Z; archive_download_url : string }.
End Artifact.

(** An element of the [builds] array of the Appveyor history; the key
    [finished] may be missing or null. *)
Module RawBuild.
Record t : Type := {
  buildId : Z;
  version : string;
  status : string;
  started : string;
  finished : option string
}.
End RawBuild.

(** An element of the [jobs] array of an Appveyor build. *)
Module RawAppveyorJob.
Record t : Type := { jobId : string; name : string; status : string }.
End RawAppveyorJob.

(** The answers of the remote services to the requests of [main], each
    after [raise_for_status] and decoding: a failed request is a [Raise].
    - [workflow repo file]: the workflow's name and its runs;
    - [jobs url]: the job listing of a run;
    - [artifacts url]: the artifacts of a run;
    - [archive url]: the names and texts of the entries of the downloaded
      archive, in the order [iterdir] lists them;
    - [history startBuildId]: one page of the Appveyor history ([[]] also
      when the key [builds] is missing);
    - [build url]: the jobs of one Appveyor build. *)
Record Session : Type := {
  workflow : string -> string -> result (string * Gen Run.t);
  jobs : string -> result (list RawJob.t);
  artifacts : string -> result (list Artifact.t);
  archive : string -> result (list (string * string));
  history : option Z -> result (list RawBuild.t);
  build : string -> result (list RawAppveyorJob.t)
}.

(** ** The loops of [main] *)

Section Fetchers.
(** [dateutil.parser.isoparse] *)
Variable isoparse : string -> result datetime.
Variable s : Session.
Variable cutoff : datetime.

(** [get_client_test_outcomes] *)
Definition get_client_test_outcomes (artifact_url : string)
  : result (list (string * Outcome)) :=
  let* entries := archive s artifact_url in
  fold_left
    (fun acc p =>
       let* tests := acc in
       if endswith (fst p) ".rc" then
         let* rc := int_ (snd p) in
         Ok (dict_set tests (drop_last3 (fst p)) (if rc =? 0 then PASS else FAIL))
       else Ok tests)
    entries (Ok []).

(** The job record built from one element of a run's job listing. *)
Definition make_job_status (j : RawJob.t) : result JobStatus.t :=
  let* ts := isoparse (RawJob.started_at j) in
  let* oc := from_conclusion (RawJob.conclusion j) in
  Ok {| JobStatus.name := RawJob.name j;
        JobStatus.url := RawJob.html_url j;
        JobStatus.timestamp := ts;
        JobStatus.outcome := oc |}.

(** The body of the loop over the runs of one workflow file. *)
Definition github_run_body (wffilename wfname : string)
    (github_statuses : list WorkflowStatus.t) (run : Run.t)
  : result (flow * list WorkflowStatus.t) :=
  if negb (String.eqb (Run.status run) "completed")
     || negb (str_in (Run.event run) ["schedule"; "workflow_dispatch"])
  then Ok (Continue, github_statuses)
  else
    let dt := ensure_aware (Run.created_at run) in
    let* old := datetime_le dt cutoff in
    if old then Ok (Break, github_statuses)
    else
      let* js := jobs s (Run.jobs_url run) in
      let* job_statuses := mapM make_job_status js in
      let* oc := from_conclusion (Run.conclusion run) in
      Ok (Continue,
          app github_statuses
            [{| WorkflowStatus.file := wffilename;
                WorkflowStatus.name := wfname;
                WorkflowStatus.build_id := Run.run_number run;
                WorkflowStatus.url := Run.html_url run;
                WorkflowStatus.timestamp := dt;
                WorkflowStatus.outcome := oc;
                WorkflowStatus.jobs := job_statuses |}]).

(** The loop over [WORKFLOWS]. *)
Fixpoint github_loop (files : list string) (github_statuses : list WorkflowStatus.t)
  : option (result (list WorkflowStatus.t)) :=
  match files with
  | [] => Some (Ok github_statuses)
  | wffilename :: files' =>
      match workflow s WORKFLOW_REPO wffilename with
      | Raise e => Some (Raise e)
      | Ok (wfname, runs) =>
          match for_each (github_run_body wffilename wfname) runs github_statuses with
          | Some (Ok github_statuses') => github_loop files' github_statuses'
          | other => other
          end
      end
  end.

(** [(artifact,) = r.json()["artifacts"]] *)
Definition unpack_one (xs : list Artifact.t) : result Artifact.t :=
  match xs with
  | [x] => Ok x
  | [] => Raise (ValueError "not enough values to unpack" "(expected 1, got 0)")
  | _ => Raise (ValueError "too many values to unpack" "(expected 1)")
  end.

(** The body of the loop over the runs of the clients' workflow. *)
Definition client_run_body (client_statuses : list ClientEntry) (run : Run.t)
  : result (flow * list ClientEntry) :=
  if negb (String.eqb (Run.status run) "completed")
  then Ok (Continue, client_statuses)
  else
    let dt := ensure_aware (Run.created_at run) in
    let* old := datetime_le dt cutoff in
    if old then Ok (Break, client_statuses)
    else
      match fullmatch_result (Run.head_branch run) with
      | None => Raise AssertionError
      | Some (m1, m2) =>
          let* oc := from_conclusion (Run.conclusion run) in
          if decide (oc = PASS) then
            let* arts := artifacts s (Run.artifacts_url run) in
            let* artifact := unpack_one arts in
            let* build_id := int_ m2 in
            let* tests :=
              get_client_test_outcomes (Artifact.archive_download_url artifact) in
            Ok (Continue,
                app client_statuses
                  [Status
                     {| ClientStatus.client_id := m1;
                        ClientStatus.build_id := build_id;
                        ClientStatus.timestamp := dt;
                        ClientStatus.artifact_url :=
                          "https://github.com/" +:+ CLIENTS_REPO +:+ "/suites/"
                            +:+ pretty (Run.check_suite_id run) +:+ "/artifacts/"
                            +:+ pretty (Artifact.id artifact);
                        ClientStatus.tests := tests |}])
          else
            let* build_id := int_ m2 in
            Ok (Continue,
                app client_statuses
                  [ProcessError
                     {| ResultProcessError.client_id := m1;
                        ResultProcessError.build_id := build_id;
                        ResultProcessError.timestamp := dt;
                        ResultProcessError.url := Run.html_url run |}])
      end.

(** The loop that fills [client_statuses]. *)
Definition client_loop : option (result (list ClientEntry)) :=
  match workflow s CLIENTS_REPO CLIENTS_WORKFLOW with
  | Raise e => Some (Raise e)
  | Ok (_, runs) => for_each client_run_body runs []
  end.

(** [get_appveyor_builds]: one request per page, at most [fuel] pages. *)
Fixpoint get_appveyor_builds (fuel : nat) (startBuildId : option Z)
  : Gen RawBuild.t :=
  match fuel with
  | O => Pending
  | S fuel' =>
      match history s startBuildId with
      | Raise e => Fail e
      | Ok [] => Stop
      | Ok (b :: bs) =>
          yield_from (b :: bs)
            (get_appveyor_builds fuel'
               (Some (RawBuild.buildId (List.last bs b))))
      end
  end.

(** The job record built from one element of a build's job list. *)
Definition make_appveyor_job (build_id : Z) (job : RawAppveyorJob.t)
  : result AppveyorJob.t :=
  let* oc := from_appveyor_status (RawAppveyorJob.status job) in
  Ok {| AppveyorJob.build_id := build_id;
        AppveyorJob.id := RawAppveyorJob.jobId job;
        AppveyorJob.name := RawAppveyorJob.name job;
        AppveyorJob.outcome := oc |}.

(** The record appended for a retained build: the request for the
    build's details, then the fields in the order the call evaluates
    them. *)
Definition make_appveyor_build (b : RawBuild.t) : result AppveyorBuild.t :=
  let* data :=
    build s ("https://ci.appveyor.com/api/projects/" +:+ APPVEYOR_PROJECT +:+ "/build/"
               +:+ RawBuild.version b) in
  let* oc := from_appveyor_status (RawBuild.status b) in
  let* ts := isoparse (RawBuild.started b) in
  let* js := mapM (make_appveyor_job (RawBuild.buildId b)) data in
  Ok {| AppveyorBuild.id := RawBuild.buildId b;
        AppveyorBuild.version := RawBuild.version b;
        AppveyorBuild.timestamp := ts;
        AppveyorBuild.outcome := oc;
        AppveyorBuild.jobs := js |}.

(** The body of the loop over the Appveyor builds. *)
Definition appveyor_body (appveyor_builds : list AppveyorBuild.t) (b : RawBuild.t)
  : result (flow * list AppveyorBuild.t) :=
  match RawBuild.finished b with
  | None => Ok (Continue, appveyor_builds)
  | Some text =>
      let* finished := isoparse text in
      let* old := datetime_le finished cutoff in
      if old then Ok (Break, appveyor_builds)
      else
        let* ab := make_appveyor_build b in
        Ok (Continue, app appveyor_builds [ab])
  end.

(** The loop that fills [appveyor_builds], over any iteration [g]. *)
Definition appveyor_scan (g : Gen RawBuild.t) : option (result (list AppveyorBuild.t)) :=
  for_each appveyor_body g [].

(** The same loop over [get_appveyor_builds(s)]. *)
Definition appveyor_loop (fuel : nat) : option (result (list AppveyorBuild.t)) :=
  appveyor_scan (get_appveyor_builds fuel None).

End Fetchers.

(** ** The specification's notions, for comparison with the code *)

(** The outcomes the specification tallies: those of all jobs of all
    workflow runs, of all tests of all client runs with one [ERROR] for
    each client error, and of all jobs of all Appveyor builds. *)
Definition spec_workflow_outcomes (w : WorkflowStatus.t) : list Outcome :=
  map JobStatus.outcome (WorkflowStatus.jobs w).

Definition spec_client_outcomes (cstatus : ClientEntry) : list Outcome :=
  match cstatus with
  | Status c => map snd (ClientStatus.tests c)
  | ProcessError _ => [ERROR]
  end.

Definition spec_build_outcomes (b : AppveyorBuild.t) : list Outcome :=
  map AppveyorJob.outcome (AppveyorBuild.jobs b).

Definition spec_counted_outcomes (r : DailyStatus.t) : list Outcome :=
  (concat (map spec_workflow_outcomes (DailyStatus.github_runs r))
   ++ concat (map spec_client_outcomes (DailyStatus.client_runs r))
   ++ concat (map spec_build_outcomes (DailyStatus.appveyor_builds r)))%list.

(** The [id] attribute the specification gives to a client entry that
    comes after the entries [earlier]: the anchor when no earlier entry
    is of the same client, and nothing otherwise. *)
Definition spec_idattr (earlier : list ClientEntry) (cstatus : ClientEntry) : string :=
  if decide (client_id cstatus ∈ map client_id earlier)
  then EmptyString
  else " id=" +:+ dq +:+ client_id cstatus +:+ dq.

(** The list items of the client section according to the specification,
    one for each entry in sequence order. *)
Definition spec_client_items (str_datetime : datetime -> string)
    (runs : list ClientEntry) : list string :=
  imap (fun k cstatus => client_li str_datetime (spec_idattr (take k runs) cstatus) cstatus)
    runs.

(** The number of workflow files and of known clients that no entry of
    the report refers to. *)
Definition spec_absent (r : DailyStatus.t) : nat :=
  (length (filter (fun f => f ∉ map WorkflowStatus.file (DailyStatus.github_runs r))
             WORKFLOWS)
   + size (filter (fun c => c ∉ map client_id (DailyStatus.client_runs r))
             (DailyStatus.all_clients r)))%nat.

(** The number that a string of decimal digits denotes. *)
Definition decimal_value (digits : string) : Z :=
  fold_left (fun acc c => 10 * acc + digit_value c) (list_ascii_of_string digits) 0.

(** The history answers with the non-empty [pages], one after the other,
    to the requests that start without a cursor (or at [startBuildId])
    and go on with the identifier of the last build of the page before. *)
Fixpoint served (s : Session) (startBuildId : option Z)
    (pages : list (list RawBuild.t)) : Prop :=
  match pages with
  | [] => True
  | page :: pages' =>
      match page with
      | [] => False
      | b :: bs =>
          history s startBuildId = Ok page
          /\ served s (Some (RawBuild.buildId (List.last bs b))) pages'
      end
  end.

(** A section of the body: the placeholder when there are no items,
    and the items one after the other otherwise. *)
Definition spec_section (placeholder : string) (items : list string) : string :=
  match items with
  | [] => "<li>" +:+ placeholder +:+ "</li>" +:+ nl
  | _ :: _ => join EmptyString items
  end.

(** The body of the report before it is put into the document: the
    three sections between their fixed headings. *)
Definition spec_body (str_datetime : datetime -> string) (r : DailyStatus.t) : string :=
  body_open
    +:+ spec_section "[no runs]" (map (github_li str_datetime) (DailyStatus.github_runs r))
    +:+ body_clients
    +:+ spec_section "[no runs]" (spec_client_items str_datetime (DailyStatus.client_runs r))
    +:+ body_appveyor
    +:+ spec_section "[no builds]"
          (map (appveyor_li str_datetime) (DailyStatus.appveyor_builds r))
    +:+ body_close.

(** ** Sample values *)

Module Examples.

Definition noon : datetime := {| wall := 1000; utcoffset := Some 0 |}.

(** Stand-ins for [str] on a [datetime] and for [isoparse]: the reading
    in decimal. *)
Definition show (dt : datetime) : string := pretty (wall dt).

Definition parse (text : string) : result datetime :=
  let* n := int_ text in
  Ok {| wall := n; utcoffset := Some 0 |}.

Definition alpha_error : ClientEntry :=
  ProcessError
    {| ResultProcessError.client_id := "alpha";
       ResultProcessError.build_id := 42;
       ResultProcessError.timestamp := noon;
       ResultProcessError.url := "https://example.org/runs/42" |}.

Definition alpha_run : ClientStatus.t :=
  {| ClientStatus.client_id := "alpha";
     ClientStatus.build_id := 43;
     ClientStatus.timestamp := noon;
     ClientStatus.artifact_url := "https://example.org/artifacts/43";
     ClientStatus.tests := [("fsck", PASS); ("sync", FAIL)] |}.


Definition beta_idle : ClientStatus.t :=
  {| ClientStatus.client_id := "beta";
     ClientStatus.build_id := 7;
     ClientStatus.timestamp := noon;
     ClientStatus.artifact_url := "https://example.org/artifacts/7";
     ClientStatus.tests := [] |}.

Definition ubuntu_idle : WorkflowStatus.t :=
  {| WorkflowStatus.file := "build-ubuntu.yaml";
     WorkflowStatus.name := "Build git-annex on Ubuntu";
     WorkflowStatus.build_id := 310;
     WorkflowStatus.url := "https://example.org/runs/310";
     WorkflowStatus.timestamp := noon;
     WorkflowStatus.outcome := PASS;
     WorkflowStatus.jobs := [] |}.

Definition build_idle : AppveyorBuild.t :=
  {| AppveyorBuild.id := 5;
     AppveyorBuild.version := "1.0.5";
     AppveyorBuild.timestamp := noon;
     AppveyorBuild.outcome := INCOMPLETE;
     AppveyorBuild.jobs := [] |}.


Definition report_error_then_run : DailyStatus.t :=
  {| DailyStatus.github_runs := [];
     DailyStatus.client_runs := [alpha_error; Status alpha_run];
     DailyStatus.all_clients := {["alpha"]};
     DailyStatus.appveyor_builds := [] |}.


Definition report_idle : DailyStatus.t :=
  {| DailyStatus.github_runs := [ubuntu_idle];
     DailyStatus.client_runs := [Status beta_idle];
     DailyStatus.all_clients := {["alpha"; "beta"]};
     DailyStatus.appveyor_builds := [build_idle] |}.

Definition failed_run : Run.t :=
  {| Run.status := "completed";
     Run.event := "push";
     Run.created_at := {| wall := 1000; utcoffset := None |};
     Run.conclusion := "failure";
     Run.run_number := 9;
     Run.html_url := "https://example.org/runs/9";
     Run.jobs_url := "https://example.org/runs/9/jobs";
     Run.artifacts_url := "https://example.org/runs/9/artifacts";
     Run.head_branch := "result-alpha-42";
     Run.check_suite_id := 77 |}.

Definition timed_out_run : Run.t :=
  {| Run.status := "completed";
     Run.event := "push";
     Run.created_at := {| wall := 1000; utcoffset := None |};
     Run.conclusion := "timed_out";
     Run.run_number := 10;
     Run.html_url := "https://example.org/runs/10";
     Run.jobs_url := "https://example.org/runs/10/jobs";
     Run.artifacts_url := "https://example.org/runs/10/artifacts";
     Run.head_branch := "result-alpha-42";
     Run.check_suite_id := 78 |}.

Definition raw_build (buildId : Z) (finished : option string) : RawBuild.t :=
  {| RawBuild.buildId := buildId;
     RawBuild.version := "1.0." +:+ pretty buildId;
     RawBuild.status := "success";
     RawBuild.started := "1";
     RawBuild.finished := finished |}.

(** A service whose history has one page of four builds, newest first,
    and whose builds have one failed job each; nothing else answers. *)
Definition service : Session :=
  {| workflow := fun _ _ => Raise (HTTPError "workflow");
     jobs := fun url => Raise (HTTPError url);
     artifacts := fun url => Raise (HTTPError url);
     archive := fun url => Raise (HTTPError url);
     history := fun startBuildId =>
       match startBuildId with
       | None =>
           Ok [raw_build 8 (Some "50"); raw_build 7 None;
               raw_build 6 (Some "5"); raw_build 5 (Some "60")]
       | Some _ => Raise (HTTPError "history")
       end;
     build := fun _ =>
       Ok [{| RawAppveyorJob.jobId := "j1";
              RawAppveyorJob.name := "test";
              RawAppveyorJob.status := "failed" |}] |}.

End Examples.

(** ** [main] as a whole *)

(** The three loops of [main] one after the other, then the report.
    [now_utc] is the reading of the clock at the start, [all_clients] the
    keys of the clients file, and [fuel] bounds the number of pages asked
    of the Appveyor history. *)
Section Main.
Variable isoparse : string -> result datetime.
Variable s : Session.

Definition main_status (now_utc : Z) (all_clients : gset string) (fuel : nat)
  : option (result DailyStatus.t) :=
  let cutoff := cutoff_at now_utc in
  match github_loop isoparse s cutoff WORKFLOWS [] with
  | None => None
  | Some (Raise e) => Some (Raise e)
  | Some (Ok github_statuses) =>
      match client_loop s cutoff with
      | None => None
      | Some (Raise e) => Some (Raise e)
      | Some (Ok client_statuses) =>
          match appveyor_loop isoparse s cutoff fuel with
          | None => None
          | Some (Raise e) => Some (Raise e)
          | Some (Ok appveyor_builds) =>
              Some (Ok {| DailyStatus.github_runs := github_statuses;
                          DailyStatus.client_runs := client_statuses;
                          DailyStatus.all_clients := all_clients;
                          DailyStatus.appveyor_builds := appveyor_builds |})
          end
      end
  end.

(** The subject that [main] prints and the body that it writes. *)
Definition main (str_datetime : datetime -> string) (now_utc : Z)
    (all_clients : gset string) (fuel : nat) : option (result (string * string)) :=
  match main_status now_utc all_clients fuel with
  | None => None
  | Some (Raise e) => Some (Raise e)
  | Some (Ok status) => Some (Ok (get_subject_body str_datetime status))
  end.

End Main.

(** ** Auxiliary notions for the properties of the loops *)


(** The value of [params["startBuildId"]] after the pages [pages] have
    been yielded. *)
Definition next_cursor (startBuildId : option Z) (pages : list (list RawBuild.t))
  : option Z :=
  fold_left
    (fun cursor page =>
       match page with
       | [] => cursor
       | b :: bs => Some (RawBuild.buildId (List.last bs b))
       end)
    pages startBuildId.

(** The instant of a [datetime] in microseconds, a naive value being
    read as UTC. *)
Definition instant_utc (dt : datetime) : Z :=
  wall dt - match utcoffset dt with Some o => o | None => 0 end.

(** Whether a client entry is a client error. *)
Definition is_process_error (cstatus : ClientEntry) : bool :=
  match cstatus with
  | ProcessError _ => true
  | Status _ => false
  end.

(** The timestamp of a client entry. *)
Definition client_timestamp (cstatus : ClientEntry) : datetime :=
  match cstatus with
  | Status c => ClientStatus.timestamp c
  | ProcessError e => ResultProcessError.timestamp e
  end.

(** The build number of a client entry. *)
Definition client_build_id (cstatus : ClientEntry) : Z :=
  match cstatus with
  | Status c => ClientStatus.build_id c
  | ProcessError e => ResultProcessError.build_id e
  end.

(** ** The records built for retained runs *)

(** The part of the loop bodies of [main] that comes after the tests
    for [continue] and [break], taken alone: the record that a retained
    run adds to the list. *)
Section Retained.
Variable isoparse : string -> result datetime.
Variable s : Session.

(** The [WorkflowStatus] of a retained run of the workflow file
    [wffilename] named [wfname]. *)
Definition make_workflow_status (wffilename wfname : string) (run : Run.t)
  : result WorkflowStatus.t :=
  let* js := jobs s (Run.jobs_url run) in
  let* job_statuses := mapM (make_job_status isoparse) js in
  let* oc := from_conclusion (Run.conclusion run) in
  Ok {| WorkflowStatus.file := wffilename;
        WorkflowStatus.name := wfname;
        WorkflowStatus.build_id := Run.run_number run;
        WorkflowStatus.url := Run.html_url run;
        WorkflowStatus.timestamp := ensure_aware (Run.created_at run);
        WorkflowStatus.outcome := oc;
        WorkflowStatus.jobs := job_statuses |}.

(** The [ClientStatus] or [ResultProcessError] of a retained client run. *)
Definition make_client_entry (run : Run.t) : result ClientEntry :=
  match fullmatch_result (Run.head_branch run) with
  | None => Raise AssertionError
  | Some (m1, m2) =>
      let* oc := from_conclusion (Run.conclusion run) in
      if decide (oc = PASS) then
        let* arts := artifacts s (Run.artifacts_url run) in
        let* artifact := unpack_one arts in
        let* build_id := int_ m2 in
        let* tests :=
          get_client_test_outcomes s (Artifact.archive_download_url artifact) in
        Ok (Status
              {| ClientStatus.client_id := m1;
                 ClientStatus.build_id := build_id;
                 ClientStatus.timestamp := ensure_aware (Run.created_at run);
                 ClientStatus.artifact_url :=
                   "https://github.com/" +:+ CLIENTS_REPO +:+ "/suites/"
                     +:+ pretty (Run.check_suite_id run) +:+ "/artifacts/"
                     +:+ pretty (Artifact.id artifact);
                 ClientStatus.tests := tests |})
      else
        let* build_id := int_ m2 in
        Ok (ProcessError
              {| ResultProcessError.client_id := m1;
                 ResultProcessError.build_id := build_id;
                 ResultProcessError.timestamp := ensure_aware (Run.created_at run);
                 ResultProcessError.url := Run.html_url run |})
  end.

End Retained.

(** Whether the hosted loop looks at a run at all, and whether the
    client loop does. *)
Definition github_considers (run : Run.t) : bool :=
  String.eqb (Run.status run) "completed"
  && str_in (Run.event run) ["schedule"; "workflow_dispatch"].

Definition client_considers (run : Run.t) : bool :=
  String.eqb (Run.status run) "completed".

(** ** More sample values *)

Module Samples.

(** The cutoff when the clock reads one day and a millisecond. *)
Definition limit : datetime := cutoff_at 86400001000.

Definition fresh : datetime := {| wall := 2000; utcoffset := None |}.
Definition stale : datetime := {| wall := 100; utcoffset := Some 0 |}.

Definition run (status event conclusion head_branch : string) (created_at : datetime)
    (run_number : Z) : Run.t :=
  {| Run.status := status;
     Run.event := event;
     Run.created_at := created_at;
     Run.conclusion := conclusion;
     Run.run_number := run_number;
     Run.html_url := "runs/" +:+ pretty run_number;
     Run.jobs_url := "jobs/" +:+ pretty run_number;
     Run.artifacts_url := "artifacts/" +:+ pretty run_number;
     Run.head_branch := head_branch;
     Run.check_suite_id := 1000 + run_number |}.

Definition job (name conclusion : string) : RawJob.t :=
  {| RawJob.name := name;
     RawJob.html_url := "job/" +:+ name;
     RawJob.started_at := "1500";
     RawJob.conclusion := conclusion |}.

(** The runs of the Ubuntu workflow, newest first: one still running,
    an old one triggered by a push, a fresh scheduled one, and then an
    old dispatched one. *)
Definition hosted_runs : list Run.t :=
  [run "in_progress" "schedule" "" "master" fresh 4;
   run "completed" "push" "success" "master" stale 3;
   run "completed" "schedule" "success" "master" fresh 2].

Definition hosted_old : Run.t :=
  run "completed" "workflow_dispatch" "failure" "master" stale 1.

(** A fresh scheduled run one of whose jobs timed out. *)
Definition hosted_timed_out : Run.t :=
  run "completed" "schedule" "failure" "master" fresh 5.

(** The runs of the clients' workflow: one queued on a branch of another
    shape, a passing one, a failed one, and then an old one whose branch
    and conclusion make no sense. *)
Definition client_runs : list Run.t :=
  [run "queued" "push" "" "not-a-result-branch" fresh 14;
   run "completed" "push" "success" "result-alpha-43" fresh 13;
   run "completed" "push" "failure" "result-beta-7" fresh 12].

Definition client_old : Run.t := run "completed" "push" "bogus" "garbage" stale 11.

Definition the_artifact : Artifact.t :=
  {| Artifact.id := 900; Artifact.archive_download_url := "zip/900" |}.

Definition good_archive : list (string * string) :=
  [("fsck.rc", "0"); ("README", "logs of the run"); ("sync.rc", " 1" +:+ nl);
   ("fsck.rc", "2")].

Definition bad_archive : list (string * string) :=
  [("fsck.rc", "0"); ("sync.rc", "oops"); ("init.rc", "0")].

Definition hub : Session :=
  {| workflow := fun repo file =>
       if String.eqb repo CLIENTS_REPO
       then Ok ("Handle result",
                yield_from client_runs (Yield client_old (Fail (HTTPError "page 2"))))
       else if String.eqb file "build-ubuntu.yaml"
       then Ok ("Build on Ubuntu", yield_from hosted_runs (Yield hosted_old Pending))
       else Ok (file, Stop);
     jobs := fun url =>
       if String.eqb url "jobs/5"
       then Ok [job "build" "success"; job "test" "timed_out"; job "upload" "skipped"]
       else Ok [job "build" "success"; job "test" "failure"];
     artifacts := fun url =>
       if String.eqb url "artifacts/13" then Ok [the_artifact] else Ok [];
     archive := fun url =>
       if String.eqb url "zip/900" then Ok good_archive else Ok bad_archive;
     history := fun startBuildId =>
       match startBuildId with
       | None => Ok [Examples.raw_build 8 (Some "5000"); Examples.raw_build 7 None]
       | Some 7 => Ok [Examples.raw_build 6 (Some "3000")]
       | Some _ => Ok []
       end;
     build := fun _ =>
       Ok [{| RawAppveyorJob.jobId := "j1";
              RawAppveyorJob.name := "test";
              RawAppveyorJob.status := "failed" |}] |}.

(** A history that never ends: the same page of unfinished builds,
    whatever the cursor. *)
Definition endless : Session :=
  {| workflow := fun _ _ => Raise (HTTPError "workflow");
     jobs := fun url => Raise (HTTPError url);
     artifacts := fun url => Raise (HTTPError url);
     archive := fun url => Raise (HTTPError url);
     history := fun _ => Ok [Examples.raw_build 9 None];
     build := fun url => Raise (HTTPError url) |}.

End Samples.

(** * Properties *)

(** ** The classifiers *)

(** C1: the conclusion [timed_out] does not reach the [ERROR] outcome:
    the branch names a member [ERRROR] that the enumeration does not
    have, so the classifier raises [AttributeError] there.  The other
    recognized conclusions follow the table. *)
Theorem from_conclusion_timed_out_raises :
  from_conclusion "timed_out" = Raise (AttributeError "Outcome" "ERRROR")
  /\ from_conclusion "timed_out" <> Ok ERROR
  /\ from_conclusion "success" = Ok PASS
  /\ from_conclusion "failure" = Ok FAIL
  /\ Forall (fun c => from_conclusion c = Ok INCOMPLETE)
       ["neutral"; "action_required"; "cancelled"; "skipped"; "stale"].
Proof.
  split; [reflexivity|]. split; [discriminate|].
  split; [reflexivity|]. split; [reflexivity|].
  repeat constructor.
Qed.

Lemma str_in_false (x : string) (xs : list string) : x ∉ xs -> str_in x xs = false.
Proof.
  intros Hx. unfold str_in. apply not_true_is_false. intros Hex.
  apply existsb_exists in Hex as (y & Hy & Heq).
  apply String.eqb_eq in Heq. subst y. apply Hx. by apply list_elem_of_In.
Qed.

Lemma eqb_not_elem_of (x y : string) (xs : list string) :
  x ∉ xs -> y ∈ xs -> String.eqb x y = false.
Proof.
  intros Hx Hy. apply String.eqb_neq. intros ->. contradiction.
Qed.

(** C2: a status outside the vocabulary of its source is not given any
    outcome: the hosted-workflow classifier and the Appveyor classifier
    both raise the [ValueError] that names the unknown status. *)
Theorem unrecognized_status_raises (concl status : string) :
  concl ∉ ["success"; "failure"; "timed_out"; "neutral"; "action_required";
           "cancelled"; "skipped"; "stale"] ->
  status ∉ ["success"; "failed"; "cancelled"] ->
  from_conclusion concl = Raise (ValueError "Unknown GitHub workflow conclusion: " concl)
  /\ from_appveyor_status status = Raise (ValueError "Unknown Appveyor status: " status)
  /\ (forall oc, from_conclusion concl <> Ok oc)
  /\ (forall oc, from_appveyor_status status <> Ok oc).
Proof.
  intros Hc Hs.
  assert (from_conclusion concl
          = Raise (ValueError "Unknown GitHub workflow conclusion: " concl)) as E1.
  { unfold from_conclusion.
    rewrite (eqb_not_elem_of _ "success" _ Hc) by set_solver.
    rewrite (eqb_not_elem_of _ "failure" _ Hc) by set_solver.
    rewrite (eqb_not_elem_of _ "timed_out" _ Hc) by set_solver.
    rewrite str_in_false; [reflexivity|]. set_solver. }
  assert (from_appveyor_status status
          = Raise (ValueError "Unknown Appveyor status: " status)) as E2.
  { unfold from_appveyor_status.
    rewrite (eqb_not_elem_of _ "success" _ Hs) by set_solver.
    rewrite (eqb_not_elem_of _ "failed" _ Hs) by set_solver.
    rewrite (eqb_not_elem_of _ "cancelled" _ Hs) by set_solver.
    reflexivity. }
  rewrite E1, E2. repeat split; intros oc; discriminate.
Qed.

Lemma unrecognized_status_raises_witness :
  ("bogus" ∉ ["success"; "failure"; "timed_out"; "neutral"; "action_required";
              "cancelled"; "skipped"; "stale"])
  /\ ("failure" ∉ ["success"; "failed"; "cancelled"])
  /\ from_conclusion "bogus"
     = Raise (ValueError "Unknown GitHub workflow conclusion: " "bogus")
  /\ from_appveyor_status "failure"
     = Raise (ValueError "Unknown Appveyor status: " "failure").
Proof.
  assert ("bogus" ∉ ["success"; "failure"; "timed_out"; "neutral"; "action_required";
                     "cancelled"; "skipped"; "stale"]) as H1.
  { intros H. repeat (apply elem_of_cons in H as [H|H]; [discriminate H|]).
    by apply elem_of_nil in H. }
  assert ("failure" ∉ ["success"; "failed"; "cancelled"]) as H2.
  { intros H. repeat (apply elem_of_cons in H as [H|H]; [discriminate H|]).
    by apply elem_of_nil in H. }
  pose proof (unrecognized_status_raises "bogus" "failure" H1 H2) as (E1 & E2 & _).
  exact (conj H1 (conj H2 (conj E1 E2))).
Defined.

(** ** The counter *)

Lemma counter_get_add (c : Counter) (k k' : Outcome) (n : nat) :
  counter_get (counter_add c k n) k'
  = (counter_get c k' + if decide (k = k') then n else 0)%nat.
Proof.
  induction c as [|[k1 m] c IH]; simpl.
  - repeat case_decide; lia.
  - destruct (decide (k1 = k)) as [->|Hne]; simpl.
    + repeat case_decide; lia.
    + rewrite IH. repeat case_decide; subst; try lia; congruence.
Qed.

Lemma counter_total_add (c : Counter) (k k' : Outcome) (n : nat) :
  counter_total (counter_add c k n) k'
  = (counter_total c k' + if decide (k = k') then n else 0)%nat.
Proof.
  unfold counter_total.
  induction c as [|[k1 m] c IH]; simpl.
  - repeat case_decide; lia.
  - destruct (decide (k1 = k)) as [->|Hne]; simpl.
    + repeat case_decide; lia.
    + rewrite IH. repeat case_decide; subst; try lia; congruence.
Qed.

Lemma counter_add_not_nil (c : Counter) (k : Outcome) (n : nat) :
  counter_add c k n <> [].
Proof. destruct c as [|[k1 m] c]; simpl; [|case_decide]; discriminate. Qed.

Lemma count_into_total (xs : list Outcome) (c : Counter) (k : Outcome) :
  counter_total (fold_left (fun c x => counter_add c x 1%nat) xs c) k
  = (counter_total c k + count_occ Outcome_eq_dec xs k)%nat.
Proof.
  revert c. induction xs as [|x xs IH]; intros c; simpl; [lia|].
  rewrite IH, counter_total_add.
  destruct (Outcome_eq_dec x k); case_decide; try contradiction; lia.
Qed.

Lemma Counter_of_total (xs : list Outcome) (k : Outcome) :
  counter_total (Counter_of xs) k = count_occ Outcome_eq_dec xs k.
Proof. unfold Counter_of. by rewrite count_into_total. Qed.

Lemma Counter_update_get (d c : Counter) (k : Outcome) :
  counter_get (Counter_update c d) k = (counter_get c k + counter_total d k)%nat.
Proof.
  unfold Counter_update, counter_total. revert c.
  induction d as [|[k1 n] d IH]; intros c; simpl; [lia|].
  rewrite IH, counter_get_add. simpl. lia.
Qed.

Lemma fold_counter_add_nil {A : Type} (f : A -> Outcome) (g : A -> nat)
    (xs : list A) (c : Counter) :
  fold_left (fun c x => counter_add c (f x) (g x)) xs c = [] <-> c = [] /\ xs = [].
Proof.
  revert c. induction xs as [|x xs IH]; intros c; simpl; [naive_solver|].
  rewrite IH. split; [|intros [_ ?]; discriminate].
  intros [H _]. by apply counter_add_not_nil in H.
Qed.

Lemma Counter_update_of_nil (c : Counter) (xs : list Outcome) :
  Counter_update c (Counter_of xs) = [] <-> c = [] /\ xs = [].
Proof.
  unfold Counter_update, Counter_of.
  rewrite fold_counter_add_nil, (fold_counter_add_nil (fun x => x) (fun _ => 1%nat)).
  naive_solver.
Qed.

Lemma Counter_update_of_get (c : Counter) (xs : list Outcome) (k : Outcome) :
  counter_get (Counter_update c (Counter_of xs)) k
  = (counter_get c k + count_occ Outcome_eq_dec xs k)%nat.
Proof. by rewrite Counter_update_get, Counter_of_total. Qed.

Lemma Counter_bool_false (c : Counter) : Counter_bool c = false <-> c = [].
Proof. destruct c; simpl; split; congruence. Qed.

(** ** The tally of [get_subject_body] *)

(** A loop whose step updates the counter with the counter of some
    outcomes of the item: the counter after the loop. *)
Section TallyFold.
Context {A St : Type}.
Variable step : St -> A -> St.
Variable qtys_of : St -> Counter.
Variable outs : A -> list Outcome.
Hypothesis step_tally :
  forall st x, qtys_of (step st x) = Counter_update (qtys_of st) (Counter_of (outs x)).

Lemma fold_tally_get (xs : list A) (st : St) (k : Outcome) :
  counter_get (qtys_of (fold_left step xs st)) k
  = (counter_get (qtys_of st) k
     + count_occ Outcome_eq_dec (concat (map outs xs)) k)%nat.
Proof.
  revert st. induction xs as [|x xs IH]; intros st; simpl; [lia|].
  rewrite IH, step_tally, Counter_update_of_get, count_occ_app. lia.
Qed.

Lemma fold_tally_nil (xs : list A) (st : St) :
  qtys_of (fold_left step xs st) = [] <-> qtys_of st = [] /\ concat (map outs xs) = [].
Proof.
  revert st. induction xs as [|x xs IH]; intros st; simpl; [naive_solver|].
  rewrite IH, step_tally, Counter_update_of_nil.
  split.
  - intros [[-> ->] ->]. done.
  - intros [-> [-> ->]%app_eq_nil]. done.
Qed.
End TallyFold.

Section RendererTally.
Variable str_datetime : datetime -> string.


Lemma render_github_get (runs : list WorkflowStatus.t) (st : string * Counter)
    (k : Outcome) :
  counter_get (snd (render_github str_datetime runs st)) k
  = (counter_get (snd st) k
     + count_occ Outcome_eq_dec (concat (map spec_workflow_outcomes runs)) k)%nat.
Proof.
  destruct runs as [|w runs]; [simpl; lia|].
  unfold render_github.
  apply (fold_tally_get (github_step str_datetime) snd spec_workflow_outcomes).
  by intros [body qtys] x.
Qed.

Lemma render_github_nil (runs : list WorkflowStatus.t) (st : string * Counter) :
  snd (render_github str_datetime runs st) = []
  <-> snd st = [] /\ concat (map spec_workflow_outcomes runs) = [].
Proof.
  destruct runs as [|w runs]; [simpl; naive_solver|].
  unfold render_github.
  apply (fold_tally_nil (github_step str_datetime) snd spec_workflow_outcomes).
  by intros [body qtys] x.
Qed.

Lemma client_step_tally (st : gset string * string * Counter) (x : ClientEntry) :
  snd (client_step str_datetime st x)
  = Counter_update (snd st) (Counter_of (spec_client_outcomes x)).
Proof.
  destruct st as [[seen body] qtys]. unfold client_step.
  destruct (client_idattr seen x) as [idattr seen']. by destruct x.
Qed.

Lemma render_clients_snd (runs : list ClientEntry) (st : string * Counter) :
  snd (render_clients str_datetime runs st)
  = snd (fold_left (client_step str_datetime) runs (∅, fst st, snd st)).
Proof.
  destruct runs as [|e runs]; [done|]. unfold render_clients.
  by destruct (fold_left _ _ _) as [[seen body] qtys].
Qed.

Lemma render_clients_get (runs : list ClientEntry) (st : string * Counter)
    (k : Outcome) :
  counter_get (snd (render_clients str_datetime runs st)) k
  = (counter_get (snd st) k
     + count_occ Outcome_eq_dec (concat (map spec_client_outcomes runs)) k)%nat.
Proof.
  rewrite render_clients_snd.
  by rewrite (fold_tally_get (client_step str_datetime) snd spec_client_outcomes
                client_step_tally).
Qed.

Lemma render_clients_nil (runs : list ClientEntry) (st : string * Counter) :
  snd (render_clients str_datetime runs st) = []
  <-> snd st = [] /\ concat (map spec_client_outcomes runs) = [].
Proof.
  rewrite render_clients_snd.
  by rewrite (fold_tally_nil (client_step str_datetime) snd spec_client_outcomes
                client_step_tally).
Qed.

Lemma render_appveyor_get (builds : list AppveyorBuild.t) (st : string * Counter)
    (k : Outcome) :
  counter_get (snd (render_appveyor str_datetime builds st)) k
  = (counter_get (snd st) k
     + count_occ Outcome_eq_dec (concat (map spec_build_outcomes builds)) k)%nat.
Proof.
  destruct builds as [|b builds]; [simpl; lia|].
  unfold render_appveyor.
  apply (fold_tally_get (appveyor_step str_datetime) snd spec_build_outcomes).
  by intros [body qtys] x.
Qed.

Lemma render_appveyor_nil (builds : list AppveyorBuild.t) (st : string * Counter) :
  snd (render_appveyor str_datetime builds st) = []
  <-> snd st = [] /\ concat (map spec_build_outcomes builds) = [].
Proof.
  destruct builds as [|b builds]; [simpl; naive_solver|].
  unfold render_appveyor.
  apply (fold_tally_nil (appveyor_step str_datetime) snd spec_build_outcomes).
  by intros [body qtys] x.
Qed.

Lemma qtys_get (r : DailyStatus.t) (k : Outcome) :
  counter_get (snd (render_sections str_datetime r)) k
  = count_occ Outcome_eq_dec (spec_counted_outcomes r) k.
Proof.
  unfold render_sections, spec_counted_outcomes. cbn [fst snd].
  rewrite render_appveyor_get. cbn [fst snd].
  rewrite render_clients_get. cbn [fst snd].
  rewrite render_github_get. cbn [fst snd counter_get].
  rewrite !count_occ_app. lia.
Qed.

Lemma qtys_nil (r : DailyStatus.t) :
  snd (render_sections str_datetime r) = [] <-> spec_counted_outcomes r = [].
Proof.
  unfold render_sections, spec_counted_outcomes. cbn [fst snd].
  rewrite render_appveyor_nil. cbn [fst snd].
  rewrite render_clients_nil. cbn [fst snd].
  rewrite render_github_nil. cbn [fst snd].
  split.
  - intros [[[_ ->] ->] ->]. done.
  - intros [-> [-> ->]%app_eq_nil]%app_eq_nil. done.
Qed.

Lemma subject_is_subject_of (r : DailyStatus.t) :
  fst (get_subject_body str_datetime r)
  = subject_of r (snd (render_sections str_datetime r)).
Proof.
  unfold get_subject_body. by destruct (render_sections str_datetime r).
Qed.

(** C3: the counter behind the subject line holds, for each outcome, the
    number of its occurrences among the outcomes of all jobs of all
    workflow runs, of all tests of all client runs, one [ERROR] for each
    client error, and the outcomes of all jobs of all Appveyor builds.
    The outcome of a run itself is not counted: a report made of one
    run, whatever its own outcome, with a passing and a failing job has
    the counter [PASS: 1, FAIL: 1]. *)
Theorem tally_counts_jobs_tests_and_errors (r : DailyStatus.t) :
  fst (get_subject_body str_datetime r)
  = subject_of r (snd (render_sections str_datetime r))
  /\ (forall oc : Outcome,
        counter_get (snd (render_sections str_datetime r)) oc
        = count_occ Outcome_eq_dec (spec_counted_outcomes r) oc)
  /\ (forall (wf : WorkflowStatus.t) (j1 j2 : JobStatus.t) (clients : gset string),
        let run :=
          {| WorkflowStatus.file := WorkflowStatus.file wf;
             WorkflowStatus.name := WorkflowStatus.name wf;
             WorkflowStatus.build_id := WorkflowStatus.build_id wf;
             WorkflowStatus.url := WorkflowStatus.url wf;
             WorkflowStatus.timestamp := WorkflowStatus.timestamp wf;
             WorkflowStatus.outcome := PASS;
             WorkflowStatus.jobs :=
               [{| JobStatus.name := JobStatus.name j1;
                   JobStatus.url := JobStatus.url j1;
                   JobStatus.timestamp := JobStatus.timestamp j1;
                   JobStatus.outcome := PASS |};
                {| JobStatus.name := JobStatus.name j2;
                   JobStatus.url := JobStatus.url j2;
                   JobStatus.timestamp := JobStatus.timestamp j2;
                   JobStatus.outcome := FAIL |}] |} in
        WorkflowStatus.get_summary run = [(PASS, 1%nat); (FAIL, 1%nat)]
        /\ snd (render_sections str_datetime
                  {| DailyStatus.github_runs := [run];
                     DailyStatus.client_runs := [];
                     DailyStatus.all_clients := clients;
                     DailyStatus.appveyor_builds := [] |})
           = [(PASS, 1%nat); (FAIL, 1%nat)]).
Proof.
  split; [apply subject_is_subject_of|]. split; [apply qtys_get|].
  intros wf j1 j2 clients run. split; reflexivity.
Qed.

(** ** Absent workflows and clients *)

Lemma append_cons (x : ascii) (a b : string) :
  String x a +:+ b = String x (a +:+ b).
Proof. reflexivity. Qed.

Lemma append_nil_r (a : string) : a +:+ EmptyString = a.
Proof. induction a as [|x a IH]; [done|]. by rewrite append_cons, IH. Qed.

Lemma append_assoc (a b c : string) : (a +:+ b) +:+ c = a +:+ (b +:+ c).
Proof. induction a as [|x a IH]; [done|]. by rewrite !append_cons, IH. Qed.

Lemma size_list_difference (xs l : list string) :
  NoDup xs ->
  size (list_to_set xs ∖ list_to_set l : gset string)
  = length (filter (fun f => f ∉ l) xs).
Proof.
  intros Hnd.
  rewrite <- (size_list_to_set (C := gset string)) by by apply NoDup_filter.
  f_equal. apply set_eq. intros x.
  rewrite elem_of_difference, !elem_of_list_to_set, list_elem_of_filter.
  tauto.
Qed.

Lemma size_set_difference (X : gset string) (l : list string) :
  size (X ∖ list_to_set l) = size (filter (fun c => c ∉ l) X).
Proof.
  f_equal. apply set_eq. intros x.
  rewrite elem_of_difference, elem_of_list_to_set, elem_of_filter. tauto.
Qed.

Lemma NoDup_WORKFLOWS : NoDup WORKFLOWS.
Proof. unfold WORKFLOWS. repeat constructor; set_solver. Qed.

Lemma absent_spec (r : DailyStatus.t) : absent r = spec_absent r.
Proof.
  unfold absent, spec_absent, missing_workflows, missing_clients.
  by rewrite (size_list_difference _ _ NoDup_WORKFLOWS), size_set_difference.
Qed.

Lemma absent_new_client (r : DailyStatus.t) (c : string) :
  c ∉ DailyStatus.all_clients r ->
  c ∉ map client_id (DailyStatus.client_runs r) ->
  absent {| DailyStatus.github_runs := DailyStatus.github_runs r;
            DailyStatus.client_runs := DailyStatus.client_runs r;
            DailyStatus.all_clients := {[c]} ∪ DailyStatus.all_clients r;
            DailyStatus.appveyor_builds := DailyStatus.appveyor_builds r |}
  = S (absent r).
Proof.
  intros Hnew Hrun. unfold absent, missing_workflows, missing_clients. simpl.
  set (seen := list_to_set (map client_id (DailyStatus.client_runs r)) : gset string).
  assert (c ∉ seen) as Hseen by (subst seen; by rewrite elem_of_list_to_set).
  replace (({[c]} ∪ DailyStatus.all_clients r) ∖ seen)
    with ({[c]} ∪ DailyStatus.all_clients r ∖ seen) by set_solver.
  rewrite (size_union (C := gset string) {[c]}) by set_solver.
  rewrite size_singleton. lia.
Qed.

Lemma subject_with_counts (r : DailyStatus.t) :
  spec_counted_outcomes r <> [] ->
  fst (get_subject_body str_datetime r)
  = if decide (absent r = 0%nat)
    then counts_subject (snd (render_sections str_datetime r))
    else counts_subject (snd (render_sections str_datetime r))
           +:+ ", " +:+ pretty (absent r) +:+ " ABSENT".
Proof.
  intros Hne. rewrite subject_is_subject_of. unfold subject_of.
  destruct (Counter_bool _) eqn:Hq.
  - destruct (decide (absent r = 0%nat)) as [->|Hn]; [done|].
    by apply Nat.eqb_neq in Hn as ->.
  - apply Counter_bool_false, qtys_nil in Hq. contradiction.
Qed.

(** C4: when the tally is not empty, the subject ends with the absence
    count, which is the number of workflow files that no run refers to
    plus the number of known clients that no client entry refers to (and
    is left out when that number is zero).  Adding to the known clients
    an identifier that no client entry refers to raises the count by
    one, and the subject then ends with the new count. *)
Theorem absence_count_in_subject (r : DailyStatus.t) (c : string) :
  spec_counted_outcomes r <> [] ->
  c ∉ DailyStatus.all_clients r ->
  c ∉ map client_id (DailyStatus.client_runs r) ->
  let r' := {| DailyStatus.github_runs := DailyStatus.github_runs r;
               DailyStatus.client_runs := DailyStatus.client_runs r;
               DailyStatus.all_clients := {[c]} ∪ DailyStatus.all_clients r;
               DailyStatus.appveyor_builds := DailyStatus.appveyor_builds r |} in
  let counts := counts_subject (snd (render_sections str_datetime r)) in
  absent r = spec_absent r
  /\ fst (get_subject_body str_datetime r)
     = (if decide (spec_absent r = 0%nat) then counts
        else counts +:+ ", " +:+ pretty (spec_absent r) +:+ " ABSENT")
  /\ spec_absent r' = S (spec_absent r)
  /\ fst (get_subject_body str_datetime r')
     = counts +:+ ", " +:+ pretty (S (spec_absent r)) +:+ " ABSENT".
Proof.
  intros Hne Hnew Hrun r' counts.
  assert (absent r' = S (absent r)) as Hstep by by apply absent_new_client.
  split; [apply absent_spec|].
  split; [rewrite <- absent_spec; by apply subject_with_counts|].
  split; [by rewrite <- !absent_spec|].
  rewrite (subject_with_counts r') by done.
  rewrite Hstep, <- absent_spec. by destruct (decide (S (absent r) = 0%nat)).
Qed.


(** ** The body in closed form *)

Lemma join_cons (x : string) (xs : list string) :
  join EmptyString (x :: xs) = x +:+ join EmptyString xs.
Proof. destruct xs; simpl; [by rewrite append_nil_r|done]. Qed.

Lemma spec_section_cons (placeholder x : string) (xs : list string) :
  spec_section placeholder (x :: xs) = x +:+ join EmptyString xs.
Proof. unfold spec_section. apply join_cons. Qed.

(** A loop whose step appends one item to the body. *)
Section BodyFold.
Context {A : Type}.
Variable step : string * Counter -> A -> string * Counter.
Variable item : A -> string.
Hypothesis step_body : forall st x, fst (step st x) = fst st +:+ item x.

Lemma fold_body (xs : list A) (st : string * Counter) :
  fst (fold_left step xs st) = fst st +:+ join EmptyString (map item xs).
Proof.
  revert st. induction xs as [|x xs IH]; intros st.
  - simpl. by rewrite append_nil_r.
  - cbn [fold_left map]. by rewrite IH, step_body, join_cons, append_assoc.
Qed.
End BodyFold.

Lemma render_github_body (runs : list WorkflowStatus.t) (st : string * Counter) :
  fst (render_github str_datetime runs st)
  = fst st +:+ spec_section "[no runs]" (map (github_li str_datetime) runs).
Proof.
  destruct runs as [|w runs]; [done|].
  unfold render_github, spec_section.
  apply (fold_body (github_step str_datetime)). by intros [body qtys] x.
Qed.

Lemma render_appveyor_body (builds : list AppveyorBuild.t) (st : string * Counter) :
  fst (render_appveyor str_datetime builds st)
  = fst st +:+ spec_section "[no builds]" (map (appveyor_li str_datetime) builds).
Proof.
  destruct builds as [|b builds]; [done|].
  unfold render_appveyor, spec_section.
  apply (fold_body (appveyor_step str_datetime)). by intros [body qtys] x.
Qed.

(** The client loop: [seen] holds the clients of the entries already
    written, and each entry gets the attribute the specification
    describes. *)
Lemma client_idattr_spec (earlier : list ClientEntry) (e : ClientEntry) :
  client_idattr (list_to_set (map client_id earlier)) e
  = (spec_idattr earlier e, list_to_set (map client_id (earlier ++ [e]))).
Proof.
  unfold client_idattr, spec_idattr.
  rewrite map_app, list_to_set_app_L. simpl.
  destruct (decide (client_id e ∈ map client_id earlier)) as [Hin|Hnin].
  - rewrite decide_False by (rewrite elem_of_list_to_set; tauto).
    f_equal. apply set_eq. intros x.
    rewrite !elem_of_union, elem_of_singleton, elem_of_list_to_set, elem_of_empty.
    split; [tauto|]. intros [H|[->|[]]]; done.
  - rewrite decide_True by by rewrite elem_of_list_to_set.
    f_equal. apply set_eq. intros x.
    rewrite !elem_of_union, elem_of_singleton, elem_of_empty. tauto.
Qed.

Lemma client_fold_body (runs earlier : list ClientEntry) (body : string)
    (qtys : Counter) :
  snd (fst (fold_left (client_step str_datetime) runs
              (list_to_set (map client_id earlier), body, qtys)))
  = body +:+ join EmptyString
               (imap (fun k e =>
                        client_li str_datetime (spec_idattr (earlier ++ take k runs) e) e)
                  runs).
Proof.
  revert earlier body qtys.
  induction runs as [|e runs IH]; intros earlier body qtys.
  - simpl. by rewrite append_nil_r.
  - cbn [fold_left]. unfold client_step at 2.
    rewrite client_idattr_spec, IH, imap_cons, join_cons, append_assoc.
    cbn [take]. rewrite app_nil_r. do 3 f_equal.
    apply imap_ext. intros k x _. simpl. by rewrite <- app_assoc.
Qed.

Lemma render_clients_body (runs : list ClientEntry) (st : string * Counter) :
  fst (render_clients str_datetime runs st)
  = fst st +:+ spec_section "[no runs]" (spec_client_items str_datetime runs).
Proof.
  destruct runs as [|e runs]; [done|].
  pose proof (client_fold_body (e :: runs) [] (fst st) (snd st)) as H.
  unfold render_clients. change (list_to_set (map client_id [])) with (∅ : gset string) in H.
  destruct (fold_left _ _ _) as [[seen body] qtys]. simpl in H. subst body.
  unfold spec_section, spec_client_items. by rewrite imap_cons.
Qed.

Lemma body_closed_form (r : DailyStatus.t) :
  snd (get_subject_body str_datetime r)
  = wrap_body (fst (get_subject_body str_datetime r)) (spec_body str_datetime r).
Proof.
  unfold get_subject_body.
  destruct (render_sections str_datetime r) as [body qtys] eqn:E. simpl. f_equal.
  apply (f_equal fst) in E. simpl in E. subst body.
  unfold render_sections, spec_body. cbn [fst snd].
  rewrite render_appveyor_body. cbn [fst snd].
  rewrite render_clients_body. cbn [fst snd].
  rewrite render_github_body. cbn [fst snd].
  by rewrite !append_assoc.
Qed.

(** ** Anchors of the client entries *)






(** ** Reports without outcomes *)

Lemma subject_nothing (r : DailyStatus.t) :
  spec_counted_outcomes r = [] ->
  fst (get_subject_body str_datetime r) = "datalad/git-annex daily summary: NOTHING".
Proof.
  intros Hnil. rewrite subject_is_subject_of. unfold subject_of.
  apply qtys_nil in Hnil. by rewrite Hnil.
Qed.

Lemma concat_map_nil {A B : Type} (f : A -> list B) (xs : list A) :
  (forall x, x ∈ xs -> f x = []) -> concat (map f xs) = [].
Proof.
  induction xs as [|x xs IH]; intros H; simpl; [done|].
  rewrite H by left. rewrite IH; [done|]. intros y Hy. apply H. by right.
Qed.


(** C9: whether the subject says NOTHING depends on the counter alone.
    When every workflow run has no jobs, every client entry is a client
    run without tests, and every Appveyor build has no jobs, the subject
    is the NOTHING subject, without any absence count, whatever runs the
    report lists and whatever clients are known; the runs are still
    written to the body. *)
Theorem subject_nothing_when_no_outcomes (r : DailyStatus.t) :
  (forall w, w ∈ DailyStatus.github_runs r -> WorkflowStatus.jobs w = []) ->
  (forall e, e ∈ DailyStatus.client_runs r ->
             exists c, e = Status c /\ ClientStatus.tests c = []) ->
  (forall b, b ∈ DailyStatus.appveyor_builds r -> AppveyorBuild.jobs b = []) ->
  fst (get_subject_body str_datetime r) = "datalad/git-annex daily summary: NOTHING"
  /\ snd (get_subject_body str_datetime r)
     = wrap_body "datalad/git-annex daily summary: NOTHING" (spec_body str_datetime r).
Proof.
  intros Hw He Hb.
  assert (fst (get_subject_body str_datetime r)
          = "datalad/git-annex daily summary: NOTHING") as Hsubject.
  { apply subject_nothing. unfold spec_counted_outcomes.
    rewrite !concat_map_nil; [done| | |].
    - intros b Hin. unfold spec_build_outcomes. by rewrite Hb.
    - intros e Hin. destruct (He e Hin) as (c & -> & Ht). simpl. by rewrite Ht.
    - intros w Hin. unfold spec_workflow_outcomes. by rewrite Hw. }
  split; [done|]. by rewrite body_closed_form, Hsubject.
Qed.

End RendererTally.

(** ** Parsing the branch name of a client run *)

Lemma is_digit_not_hyphen (c : ascii) : is_digit c = true -> Ascii.eqb c "-" = false.
Proof.
  intros Hd. destruct (Ascii.eqb_spec c "-") as [->|]; [discriminate Hd|done].
Qed.

Lemma is_digit_not_plus (c : ascii) : is_digit c = true -> Ascii.eqb c "+" = false.
Proof.
  intros Hd. destruct (Ascii.eqb_spec c "+") as [->|]; [discriminate Hd|done].
Qed.

Lemma is_digit_not_newline (c : ascii) : is_digit c = true -> is_newline c = false.
Proof.
  intros Hd. unfold is_newline.
  destruct (Ascii.eqb_spec c (ascii_of_nat 10)) as [->|]; [discriminate Hd|done].
Qed.

Lemma is_digit_not_space (c : ascii) : is_digit c = true -> is_space c = false.
Proof.
  unfold is_digit, is_space. intros [H1 H2]%andb_prop.
  apply Nat.leb_le in H1, H2.
  apply orb_false_intro; apply andb_false_iff.
  - right. apply Nat.leb_gt. lia.
  - right. apply Nat.leb_gt. lia.
Qed.

Lemma match_hyphen_digits_digit (num : string) :
  forallb is_digit (list_ascii_of_string num) = true ->
  match_hyphen_digits num = None.
Proof.
  destruct num as [|c num]; [done|]. simpl. intros [Hc _]%andb_prop.
  by rewrite (is_digit_not_hyphen c Hc).
Qed.

Lemma match_dot_plus_digits (num : string) :
  forallb is_digit (list_ascii_of_string num) = true ->
  match_dot_plus num = None.
Proof.
  induction num as [|c num IH]; [done|]. simpl. intros [Hc Hnum]%andb_prop.
  by rewrite (is_digit_not_newline c Hc), (IH Hnum), (match_hyphen_digits_digit num Hnum).
Qed.

Lemma match_hyphen_digits_ok (num : string) :
  num <> EmptyString ->
  forallb is_digit (list_ascii_of_string num) = true ->
  match_hyphen_digits ("-" +:+ num) = Some num.
Proof.
  intros Hne Hd. destruct num as [|c num]; [done|].
  change ("-" +:+ String c num) with (String "-" (String c num)).
  unfold match_hyphen_digits. by rewrite Ascii.eqb_refl, Hd.
Qed.

Lemma match_dot_plus_ok (cid num : string) :
  cid <> EmptyString ->
  forallb (fun c => negb (is_newline c)) (list_ascii_of_string cid) = true ->
  num <> EmptyString ->
  forallb is_digit (list_ascii_of_string num) = true ->
  match_dot_plus (cid +:+ "-" +:+ num) = Some (cid, num).
Proof.
  intros Hcid Hnl Hnum Hd.
  induction cid as [|c cid IH]; [done|].
  simpl in Hnl. apply andb_prop in Hnl as [Hc Hnl].
  apply negb_true_iff in Hc.
  rewrite append_cons. cbn [match_dot_plus]. rewrite Hc.
  destruct cid as [|c' cid].
  - change (EmptyString +:+ "-" +:+ num) with ("-" +:+ num).
    rewrite (match_hyphen_digits_ok num Hnum Hd).
    change ("-" +:+ num) with (String "-" num). cbn [match_dot_plus].
    change (is_newline "-") with false. cbv iota.
    by rewrite (match_dot_plus_digits num Hd), (match_hyphen_digits_digit num Hd).
  - by rewrite IH.
Qed.

Lemma fullmatch_result_ok (cid num : string) :
  cid <> EmptyString ->
  forallb (fun c => negb (is_newline c)) (list_ascii_of_string cid) = true ->
  num <> EmptyString ->
  forallb is_digit (list_ascii_of_string num) = true ->
  fullmatch_result ("result-" +:+ cid +:+ "-" +:+ num) = Some (cid, num).
Proof.
  intros. unfold fullmatch_result.
  change (strip_prefix "result-" ("result-" +:+ cid +:+ "-" +:+ num))
    with (Some (cid +:+ "-" +:+ num)).
  by apply match_dot_plus_ok.
Qed.

(** [int] on a string of digits. *)
Lemma lstrip_digits (c : ascii) (s : string) :
  is_digit c = true -> lstrip (String c s) = String c s.
Proof. intros Hc. simpl. by rewrite (is_digit_not_space c Hc). Qed.

Lemma rstrip_digits (s : string) :
  forallb is_digit (list_ascii_of_string s) = true -> rstrip s = s.
Proof.
  induction s as [|c s IH]; [done|]. simpl. intros [Hc Hs]%andb_prop.
  rewrite (IH Hs). destruct s; [|done]. by rewrite (is_digit_not_space c Hc).
Qed.

Lemma int_digits_digits (s : string) (prev : bool) (acc : Z) :
  forallb is_digit (list_ascii_of_string s) = true ->
  (s <> EmptyString \/ prev = true) ->
  int_digits prev acc s
  = Some (fold_left (fun acc c => 10 * acc + digit_value c) (list_ascii_of_string s) acc).
Proof.
  revert prev acc. induction s as [|c s IH]; intros prev acc Hd Hne.
  - destruct Hne as [? | ->]; done.
  - simpl in Hd. apply andb_prop in Hd as [Hc Hs].
    simpl. rewrite Hc. apply IH; [done|by right].
Qed.

Lemma int_digits_ok (num : string) :
  num <> EmptyString ->
  forallb is_digit (list_ascii_of_string num) = true ->
  int_ num = Ok (decimal_value num).
Proof.
  intros Hne Hd. unfold int_, decimal_value.
  destruct num as [|c num]; [done|].
  pose proof Hd as Hd'. simpl in Hd'. apply andb_prop in Hd' as [Hc _].
  rewrite (lstrip_digits c num Hc), (rstrip_digits _ Hd).
  rewrite (is_digit_not_hyphen c Hc), (is_digit_not_plus c Hc).
  rewrite int_digits_digits; [done|done|by left].
Qed.

(** ** Client runs whose result processing failed *)

Section ClientFetcher.
Variable s : Session.
Variable cutoff : datetime.

(** A completed client run newer than the cutoff, on the branch
    [result-<clientId>-<buildNumber>], whose conclusion the classifier
    maps to an outcome other than [PASS], adds a client error (not a
    client run) to the list, with the client identifier and the build
    number of the branch name; the loop then goes on with the next run. *)
Lemma classified_failure_gives_client_error (client_statuses : list ClientEntry)
    (run : Run.t) (cid num : string) (oc : Outcome) (rest : Gen Run.t) :
  Run.status run = "completed" ->
  datetime_le (ensure_aware (Run.created_at run)) cutoff = Ok false ->
  Run.head_branch run = "result-" +:+ cid +:+ "-" +:+ num ->
  cid <> EmptyString ->
  forallb (fun c => negb (is_newline c)) (list_ascii_of_string cid) = true ->
  num <> EmptyString ->
  forallb is_digit (list_ascii_of_string num) = true ->
  from_conclusion (Run.conclusion run) = Ok oc ->
  oc <> PASS ->
  let err :=
    ProcessError
      {| ResultProcessError.client_id := cid;
         ResultProcessError.build_id := decimal_value num;
         ResultProcessError.timestamp := ensure_aware (Run.created_at run);
         ResultProcessError.url := Run.html_url run |} in
  client_run_body s cutoff client_statuses run
  = Ok (Continue, app client_statuses [err])
  /\ for_each (client_run_body s cutoff) (Yield run rest) client_statuses
     = for_each (client_run_body s cutoff) rest (app client_statuses [err]).
Proof.
  intros Hstatus Hnew Hbranch Hcid Hnl Hnum Hd Hconcl Hoc err.
  assert (client_run_body s cutoff client_statuses run
          = Ok (Continue, app client_statuses [err])) as Hbody.
  { unfold client_run_body.
    rewrite Hstatus, Hnew, Hbranch. cbn [negb String.eqb bind].
    change (String.eqb "completed" "completed") with true. cbn [negb].
    rewrite (fullmatch_result_ok cid num Hcid Hnl Hnum Hd), Hconcl. cbn [bind].
    rewrite decide_False by done.
    by rewrite (int_digits_ok num Hnum Hd). }
  split; [done|]. cbn [for_each]. by rewrite Hbody.
Qed.

(** With the conclusion [timed_out] the classifier raises, and so does
    the body of the loop: no entry is added for that run. *)
Lemma timed_out_raises_in_client_loop (client_statuses : list ClientEntry) (run : Run.t)
    (m : string * string) :
  Run.status run = "completed" ->
  datetime_le (ensure_aware (Run.created_at run)) cutoff = Ok false ->
  fullmatch_result (Run.head_branch run) = Some m ->
  Run.conclusion run = "timed_out" ->
  client_run_body s cutoff client_statuses run
  = Raise (AttributeError "Outcome" "ERRROR").
Proof.
  intros Hstatus Hnew Hm Hconcl. unfold client_run_body.
  rewrite Hstatus, Hnew, Hm, Hconcl. by destruct m.
Qed.

End ClientFetcher.

(** ** The scan of the Appveyor builds *)

Section AppveyorFetcher.
Variable isoparse : string -> result datetime.
Variable s : Session.
Variable cutoff : datetime.

Lemma appveyor_scan_prefix (pre : list RawBuild.t) (g : Gen RawBuild.t)
    (acc : list AppveyorBuild.t) :
  Forall (fun x =>
            RawBuild.finished x = None
            \/ exists t d, RawBuild.finished x = Some t /\ isoparse t = Ok d
                           /\ datetime_le d cutoff = Ok false) pre ->
  for_each (appveyor_body isoparse s cutoff) (yield_from pre g) acc
  = match mapM (make_appveyor_build isoparse s)
            (filter (fun x => is_Some (RawBuild.finished x)) pre) with
    | Raise e => Some (Raise e)
    | Ok bs => for_each (appveyor_body isoparse s cutoff) g (app acc bs)
    end.
Proof.
  intros Hpre. revert acc.
  induction Hpre as [|x pre Hx Hpre IH]; intros acc.
  - simpl. by rewrite app_nil_r.
  - cbn [yield_from fold_right for_each]. unfold appveyor_body at 1.
    destruct Hx as [Hnone|(t & d & Hsome & Hparse & Hnew)].
    + rewrite Hnone. rewrite filter_cons_False by (rewrite Hnone; by intros []).
      apply IH.
    + rewrite Hsome, Hparse. cbn [bind]. rewrite Hnew. cbn [bind].
      rewrite filter_cons_True by (by rewrite Hsome). cbn [mapM].
      destruct (make_appveyor_build isoparse s x) as [ab|e]; cbn [bind]; [|done].
      fold (yield_from pre g). rewrite IH.
      destruct (mapM _ _) as [bs|e]; cbn [bind]; [|done].
      by rewrite <- app_assoc.
Qed.

Lemma yield_from_app {A : Type} (xs ys : list A) (k : Gen A) :
  yield_from (app xs ys) k = yield_from xs (yield_from ys k).
Proof. unfold yield_from. apply fold_right_app. Qed.

Lemma get_appveyor_builds_served (pages : list (list RawBuild.t)) (fuel : nat)
    (startBuildId : option Z) :
  served s startBuildId pages ->
  exists k, get_appveyor_builds s (length pages + fuel) startBuildId
            = yield_from (concat pages) k.
Proof.
  revert startBuildId. induction pages as [|page pages IH]; intros startBuildId Hs.
  - by eexists.
  - destruct page as [|b0 bs]; [done|]. destruct Hs as [Hpage Hs].
    destruct (IH _ Hs) as [k Hk]. exists k.
    cbn [length Nat.add get_appveyor_builds]. rewrite Hpage, Hk.
    cbn [concat]. by rewrite yield_from_app.
Qed.

Lemma mapM_ids (xs : list RawBuild.t) (bs : list AppveyorBuild.t) :
  mapM (make_appveyor_build isoparse s) xs = Ok bs ->
  map AppveyorBuild.id bs = map RawBuild.buildId xs.
Proof.
  revert bs. induction xs as [|x xs IH]; intros bs; simpl.
  - by intros [= <-].
  - unfold make_appveyor_build at 1.
    destruct (build s _) as [data|]; cbn [bind]; [|done].
    destruct (from_appveyor_status _) as [oc|]; cbn [bind]; [|done].
    destruct (isoparse _) as [ts|]; cbn [bind]; [|done].
    destruct (mapM (make_appveyor_job _) data) as [js|]; cbn [bind]; [|done].
    destruct (mapM _ xs) as [bs'|]; cbn [bind]; [|done].
    intros [= <-]. simpl. f_equal. by apply IH.
Qed.

(** C7: the scan passes over the builds without a finish timestamp,
    retains those that finished after the cutoff, and ends at the first
    build that finished at or before the cutoff: the result is made of
    the records of the retained builds before that one, in order, and
    does not depend on anything that comes after it, be it a later build,
    a further page of the history, or a failure to fetch one.  The
    requests for the pages up to the one that holds that build are
    enough. *)
Theorem appveyor_scan_stops_at_cutoff (pre post : list RawBuild.t) (b : RawBuild.t)
    (text : string) (finished : datetime) (rest : Gen RawBuild.t) :
  Forall (fun x =>
            RawBuild.finished x = None
            \/ exists t d, RawBuild.finished x = Some t /\ isoparse t = Ok d
                           /\ datetime_le d cutoff = Ok false) pre ->
  RawBuild.finished b = Some text ->
  isoparse text = Ok finished ->
  datetime_le finished cutoff = Ok true ->
  let retained :=
    mapM (make_appveyor_build isoparse s)
      (filter (fun x => is_Some (RawBuild.finished x)) pre) in
  appveyor_scan isoparse s cutoff (yield_from pre (Yield b rest)) = Some retained
  /\ appveyor_scan isoparse s cutoff (yield_from pre Stop) = Some retained
  /\ (forall bs, retained = Ok bs ->
        map AppveyorBuild.id bs
        = map RawBuild.buildId (filter (fun x => is_Some (RawBuild.finished x)) pre))
  /\ (forall pages fuel,
        served s None pages -> concat pages = app pre (b :: post) ->
        appveyor_loop isoparse s cutoff (length pages + fuel) = Some retained).
Proof.
  intros Hpre Hb Hparse Hold retained.
  assert (forall k, appveyor_scan isoparse s cutoff (yield_from pre (Yield b k))
                    = Some retained) as Hstop.
  { intros k. unfold appveyor_scan. rewrite (appveyor_scan_prefix pre _ [] Hpre).
    fold retained. destruct retained as [bs|e]; [|done].
    cbn [for_each app]. unfold appveyor_body.
    by rewrite Hb, Hparse; cbn [bind]; rewrite Hold. }
  split; [apply Hstop|]. split.
  { unfold appveyor_scan. rewrite (appveyor_scan_prefix pre _ [] Hpre).
    fold retained. by destruct retained. }
  split; [apply mapM_ids|].
  intros pages fuel Hserved Hconcat. unfold appveyor_loop.
  destruct (get_appveyor_builds_served pages fuel None Hserved) as [k ->].
  rewrite Hconcat. unfold yield_from at 1. rewrite fold_right_app.
  apply Hstop.
Qed.

End AppveyorFetcher.

(** * The properties on sample values *)

Import Examples.

Lemma absence_count_in_subject_witness :
  spec_counted_outcomes report_error_then_run <> []
  /\ ("beta" ∉ DailyStatus.all_clients report_error_then_run)
  /\ ("beta" ∉ map client_id (DailyStatus.client_runs report_error_then_run))
  /\ fst (get_subject_body show report_error_then_run)
     = "datalad/git-annex daily summary: 1 ERRORED, 1 PASSED, 1 FAILED, 3 ABSENT"
  /\ fst (get_subject_body show
            {| DailyStatus.github_runs := [];
               DailyStatus.client_runs := [alpha_error; Status alpha_run];
               DailyStatus.all_clients := {["beta"]} ∪ {["alpha"]};
               DailyStatus.appveyor_builds := [] |})
     = "datalad/git-annex daily summary: 1 ERRORED, 1 PASSED, 1 FAILED, 4 ABSENT".
Proof.
  assert (spec_counted_outcomes report_error_then_run <> []) as H1 by discriminate.
  assert ("beta" ∉ DailyStatus.all_clients report_error_then_run) as H2.
  { simpl. intros H. apply elem_of_singleton in H. discriminate H. }
  assert ("beta" ∉ map client_id (DailyStatus.client_runs report_error_then_run)) as H3.
  { simpl. intros H. repeat (apply elem_of_cons in H as [H|H]; [discriminate H|]).
    by apply elem_of_nil in H. }
  pose proof (absence_count_in_subject show report_error_then_run "beta" H1 H2 H3)
    as (_ & Hsubject & _ & Hsubject').
  vm_compute in Hsubject. vm_compute in Hsubject'.
  exact (conj H1 (conj H2 (conj H3 (conj Hsubject Hsubject')))).
Defined.




Lemma subject_nothing_when_no_outcomes_witness :
  (forall w, w ∈ DailyStatus.github_runs report_idle -> WorkflowStatus.jobs w = [])
  /\ (forall e, e ∈ DailyStatus.client_runs report_idle ->
                exists c, e = Status c /\ ClientStatus.tests c = [])
  /\ (forall b, b ∈ DailyStatus.appveyor_builds report_idle -> AppveyorBuild.jobs b = [])
  /\ fst (get_subject_body show report_idle) = "datalad/git-annex daily summary: NOTHING"
  /\ snd (get_subject_body show report_idle)
     = wrap_body "datalad/git-annex daily summary: NOTHING"
         (body_open +:+ github_li show ubuntu_idle +:+ body_clients
            +:+ client_li show (" id=" +:+ dq +:+ "beta" +:+ dq) (Status beta_idle)
            +:+ body_appveyor +:+ appveyor_li show build_idle +:+ body_close).
Proof.
  assert (forall w, w ∈ DailyStatus.github_runs report_idle -> WorkflowStatus.jobs w = [])
    as H1.
  { intros w Hw. apply list_elem_of_singleton in Hw. by subst w. }
  assert (forall e, e ∈ DailyStatus.client_runs report_idle ->
                    exists c, e = Status c /\ ClientStatus.tests c = []) as H2.
  { intros e He. apply list_elem_of_singleton in He. subst e. by exists beta_idle. }
  assert (forall b, b ∈ DailyStatus.appveyor_builds report_idle ->
                    AppveyorBuild.jobs b = []) as H3.
  { intros b Hb. apply list_elem_of_singleton in Hb. by subst b. }
  pose proof (subject_nothing_when_no_outcomes show report_idle H1 H2 H3)
    as (Hsubject & Hbody).
  exact (conj H1 (conj H2 (conj H3 (conj Hsubject Hbody)))).
Defined.

(** C6: a client run whose conclusion is [timed_out] does not classify
    as [PASS], yet no client error is built for it: on the branch
    [result-alpha-42], completed and newer than the cutoff, the classifier
    raises [AttributeError] (the misspelt member of C1) inside the loop
    body, and the whole loop ends with that exception, whatever entries
    were collected before and whatever runs follow.  For every other
    conclusion that classifies as an outcome other than [PASS] the client
    error is built, see [classified_failure_gives_client_error]. *)
Theorem timed_out_client_run_raises (s : Session)
    (client_statuses : list ClientEntry) (rest : Gen Run.t) :
  fullmatch_result (Run.head_branch timed_out_run) = Some ("alpha", "42")
  /\ from_conclusion (Run.conclusion timed_out_run) <> Ok PASS
  /\ client_run_body s (cutoff_at 86400000500) client_statuses timed_out_run
     = Raise (AttributeError "Outcome" "ERRROR")
  /\ for_each (client_run_body s (cutoff_at 86400000500)) (Yield timed_out_run rest)
       client_statuses
     = Some (Raise (AttributeError "Outcome" "ERRROR")).
Proof.
  assert (client_run_body s (cutoff_at 86400000500) client_statuses timed_out_run
          = Raise (AttributeError "Outcome" "ERRROR")) as Hbody.
  { by apply (timed_out_raises_in_client_loop s (cutoff_at 86400000500) client_statuses
                timed_out_run ("alpha", "42")). }
  split; [reflexivity|]. split; [discriminate|]. split; [exact Hbody|].
  cbn [for_each]. by rewrite Hbody.
Qed.

Lemma classified_failure_gives_client_error_example :
  Run.status failed_run = "completed"
  /\ datetime_le (ensure_aware (Run.created_at failed_run)) (cutoff_at 86400000500)
     = Ok false
  /\ Run.head_branch failed_run = "result-" +:+ "alpha" +:+ "-" +:+ "42"
  /\ from_conclusion (Run.conclusion failed_run) = Ok FAIL
  /\ client_run_body service (cutoff_at 86400000500) [] failed_run
     = Ok (Continue,
           [ProcessError
              {| ResultProcessError.client_id := "alpha";
                 ResultProcessError.build_id := 42;
                 ResultProcessError.timestamp := {| wall := 1000; utcoffset := Some 0 |};
                 ResultProcessError.url := "https://example.org/runs/9" |}]).
Proof.
  assert ("alpha" <> EmptyString) as Hcid by discriminate.
  assert ("42" <> EmptyString) as Hnum by discriminate.
  assert (FAIL <> PASS) as Hoc by discriminate.
  pose proof (classified_failure_gives_client_error service (cutoff_at 86400000500) []
                failed_run "alpha" "42" FAIL Stop
                eq_refl eq_refl eq_refl Hcid eq_refl Hnum eq_refl eq_refl Hoc)
    as (Hbody & _).
  exact (conj eq_refl (conj eq_refl (conj eq_refl (conj eq_refl Hbody)))).
Defined.

Lemma appveyor_scan_stops_at_cutoff_witness :
  history service None
  = Ok [raw_build 8 (Some "50"); raw_build 7 None;
        raw_build 6 (Some "5"); raw_build 5 (Some "60")]
  /\ datetime_le {| wall := 5; utcoffset := Some 0 |} {| wall := 10; utcoffset := Some 0 |}
     = Ok true
  /\ appveyor_loop parse service {| wall := 10; utcoffset := Some 0 |} 1
     = Some (Ok [{| AppveyorBuild.id := 8;
                    AppveyorBuild.version := "1.0.8";
                    AppveyorBuild.timestamp := {| wall := 1; utcoffset := Some 0 |};
                    AppveyorBuild.outcome := PASS;
                    AppveyorBuild.jobs :=
                      [{| AppveyorJob.build_id := 8;
                          AppveyorJob.id := "j1";
                          AppveyorJob.name := "test";
                          AppveyorJob.outcome := FAIL |}] |}]).
Proof.
  assert (Forall (fun x =>
                    RawBuild.finished x = None
                    \/ exists t d, RawBuild.finished x = Some t /\ parse t = Ok d
                                   /\ datetime_le d {| wall := 10; utcoffset := Some 0 |}
                                      = Ok false)
            [raw_build 8 (Some "50"); raw_build 7 None]) as Hpre.
  { constructor.
    - right. exists "50", {| wall := 50; utcoffset := Some 0 |}. repeat split.
    - constructor; [by left|constructor]. }
  pose proof (appveyor_scan_stops_at_cutoff parse service
                {| wall := 10; utcoffset := Some 0 |}
                [raw_build 8 (Some "50"); raw_build 7 None]
                [raw_build 5 (Some "60")]
                (raw_build 6 (Some "5")) "5" {| wall := 5; utcoffset := Some 0 |} Stop
                Hpre eq_refl eq_refl eq_refl)
    as (_ & _ & _ & Hloop).
  specialize (Hloop [[raw_build 8 (Some "50"); raw_build 7 None;
                      raw_build 6 (Some "5"); raw_build 5 (Some "60")]]
                0%nat (conj eq_refl I) eq_refl).
  exact (conj eq_refl (conj eq_refl Hloop)).
Defined.

(** * Further properties of the script *)

(** ** Timestamps and the cutoff *)

(** X1: the creation time of a run, once passed through [ensure_aware],
    always compares with the cutoff of [main] without a [TypeError]; a
    naive creation time is read as UTC.  [ensure_aware] leaves aware
    values alone and so is idempotent. *)
Theorem ensure_aware_compares_with_cutoff (dt : datetime) (now_utc : Z) :
  datetime_le (ensure_aware dt) (cutoff_at now_utc)
  = Ok (instant_utc dt <=? now_utc - WINDOW)
  /\ ensure_aware (ensure_aware dt) = ensure_aware dt
  /\ instant_utc (ensure_aware dt) = instant_utc dt
  /\ (forall o, utcoffset dt = Some o -> ensure_aware dt = dt).
Proof.
  unfold ensure_aware, datetime_le, cutoff_at, instant_utc.
  destruct dt as [w [o|]]; simpl; repeat split; try done;
    by rewrite !Z.sub_0_r.
Qed.

(** ** The classifiers, read backwards *)

Lemma str_in_elem_of (x : string) (xs : list string) :
  str_in x xs = true <-> x ∈ xs.
Proof.
  unfold str_in. rewrite existsb_exists. split.
  - intros (y & Hy & Heq). apply String.eqb_eq in Heq. subst y.
    by apply list_elem_of_In.
  - intros Hx. exists x. split; [by apply list_elem_of_In|apply String.eqb_refl].
Qed.

(** X2: the outcome of a classifier tells the status it came from.  The
    hosted classifier returns [PASS] only for [success], [FAIL] only for
    [failure], [INCOMPLETE] only for the five incomplete conclusions,
    and never returns [ERROR]; the Appveyor classifier returns [PASS]
    only for [success], [FAIL] only for [failed], [INCOMPLETE] only for
    [cancelled], and never returns [ERROR]. *)
Theorem classifiers_inversion (status : string) (oc : Outcome) :
  (from_conclusion status = Ok oc
   <-> (status = "success" /\ oc = PASS)
       \/ (status = "failure" /\ oc = FAIL)
       \/ (status ∈ ["neutral"; "action_required"; "cancelled"; "skipped"; "stale"]
           /\ oc = INCOMPLETE))
  /\ (from_appveyor_status status = Ok oc
      <-> (status = "success" /\ oc = PASS)
          \/ (status = "failed" /\ oc = FAIL)
          \/ (status = "cancelled" /\ oc = INCOMPLETE))
  /\ from_conclusion status <> Ok ERROR
  /\ from_appveyor_status status <> Ok ERROR.
Proof.
  assert (forall oc',
            from_conclusion status = Ok oc'
            <-> (status = "success" /\ oc' = PASS)
                \/ (status = "failure" /\ oc' = FAIL)
                \/ (status ∈ ["neutral"; "action_required"; "cancelled"; "skipped";
                              "stale"]
                    /\ oc' = INCOMPLETE)) as Hhosted.
  { intros oc'. unfold from_conclusion.
    change (Outcome_getattr "PASS") with (Ok PASS).
    change (Outcome_getattr "FAIL") with (Ok FAIL).
    change (Outcome_getattr "INCOMPLETE") with (Ok INCOMPLETE).
    change (Outcome_getattr "ERRROR") with (@Raise Outcome (AttributeError "Outcome" "ERRROR")).
    destruct (String.eqb_spec status "success") as [->|Hn1].
    { split; [intros [= <-]; by left|].
      intros [[_ ->]|[[? _]|[Hin _]]]; [done|done|].
      exfalso. repeat (apply elem_of_cons in Hin as [Hin|Hin]; [discriminate Hin|]).
      by apply elem_of_nil in Hin. }
    destruct (String.eqb_spec status "failure") as [->|Hn2].
    { split; [intros [= <-]; right; by left|].
      intros [[? _]|[[_ ->]|[Hin _]]]; [done|done|].
      exfalso. repeat (apply elem_of_cons in Hin as [Hin|Hin]; [discriminate Hin|]).
      by apply elem_of_nil in Hin. }
    destruct (String.eqb_spec status "timed_out") as [->|Hn3].
    { split; [discriminate|].
      intros [[? _]|[[? _]|[Hin _]]]; [done|done|].
      exfalso. repeat (apply elem_of_cons in Hin as [Hin|Hin]; [discriminate Hin|]).
      by apply elem_of_nil in Hin. }
    destruct (str_in status _) eqn:Hin.
    { apply str_in_elem_of in Hin. split; [intros [= <-]; right; by right|].
      intros [[? _]|[[? _]|[_ ->]]]; done. }
    split; [discriminate|].
    intros [[? _]|[[? _]|[Hin' _]]]; [done|done|].
    apply str_in_elem_of in Hin'. congruence. }
  assert (forall oc',
            from_appveyor_status status = Ok oc'
            <-> (status = "success" /\ oc' = PASS)
                \/ (status = "failed" /\ oc' = FAIL)
                \/ (status = "cancelled" /\ oc' = INCOMPLETE)) as Happveyor.
  { intros oc'. unfold from_appveyor_status.
    change (Outcome_getattr "PASS") with (Ok PASS).
    change (Outcome_getattr "FAIL") with (Ok FAIL).
    change (Outcome_getattr "INCOMPLETE") with (Ok INCOMPLETE).
    destruct (String.eqb_spec status "success") as [->|Hn1].
    { split; [intros [= <-]; by left|]. intros [[_ ->]|[[? _]|[? _]]]; done. }
    destruct (String.eqb_spec status "failed") as [->|Hn2].
    { split; [intros [= <-]; right; by left|]. intros [[? _]|[[_ ->]|[? _]]]; done. }
    destruct (String.eqb_spec status "cancelled") as [->|Hn3].
    { split; [intros [= <-]; right; by right|]. intros [[? _]|[[? _]|[_ ->]]]; done. }
    split; [discriminate|]. intros [[? _]|[[? _]|[? _]]]; done. }
  split; [apply Hhosted|]. split; [apply Happveyor|]. split.
  - intros H. apply Hhosted in H as [[_ ?]|[[_ ?]|[_ ?]]]; discriminate.
  - intros H. apply Happveyor in H as [[_ ?]|[[_ ?]|[_ ?]]]; discriminate.
Qed.

(** ** The pattern of the branch names, read backwards *)

Lemma strip_prefix_sound (p s rest : string) :
  strip_prefix p s = Some rest -> s = p +:+ rest.
Proof.
  revert s. induction p as [|a p IH]; intros s; simpl.
  - by intros [= ->].
  - destruct s as [|b s]; [done|].
    destruct (Ascii.eqb_spec a b) as [->|]; [|done].
    intros H. rewrite append_cons. f_equal. by apply IH.
Qed.

Lemma match_hyphen_digits_sound (s g2 : string) :
  match_hyphen_digits s = Some g2 ->
  s = "-" +:+ g2 /\ g2 <> EmptyString
  /\ forallb is_digit (list_ascii_of_string g2) = true.
Proof.
  destruct s as [|c ds]; [done|]. unfold match_hyphen_digits.
  destruct (Ascii.eqb_spec c "-") as [->|]; [|done].
  destruct ds as [|d ds]; [done|].
  destruct (forallb _ _) eqn:Hd; [|done].
  intros [= <-]. done.
Qed.

Lemma match_dot_plus_sound (s g1 g2 : string) :
  match_dot_plus s = Some (g1, g2) ->
  s = g1 +:+ "-" +:+ g2
  /\ g1 <> EmptyString
  /\ forallb (fun c => negb (is_newline c)) (list_ascii_of_string g1) = true
  /\ g2 <> EmptyString
  /\ forallb is_digit (list_ascii_of_string g2) = true.
Proof.
  revert g1. induction s as [|c s IH]; intros g1; [done|].
  cbn [match_dot_plus]. destruct (is_newline c) eqn:Hc; [done|].
  destruct (match_dot_plus s) as [[h1 h2]|] eqn:Hrest.
  - intros [= <- <-]. destruct (IH h1 eq_refl) as (-> & Hne & Hnl & Hne2 & Hd).
    repeat split; try done. simpl. by rewrite Hc.
  - destruct (match_hyphen_digits s) as [h2|] eqn:Hh; [|done].
    intros [= <- <-]. apply match_hyphen_digits_sound in Hh as (-> & Hne2 & Hd).
    repeat split; try done. simpl. by rewrite Hc.
Qed.

Lemma fullmatch_result_iff_helper (branch g1 g2 : string) :
  fullmatch_result branch = Some (g1, g2) ->
  branch = "result-" +:+ g1 +:+ "-" +:+ g2
  /\ g1 <> EmptyString
  /\ forallb (fun c => negb (is_newline c)) (list_ascii_of_string g1) = true
  /\ g2 <> EmptyString
  /\ forallb is_digit (list_ascii_of_string g2) = true.
Proof.
  unfold fullmatch_result.
  destruct (strip_prefix "result-" branch) as [rest|] eqn:Hp; [|done].
  apply strip_prefix_sound in Hp as ->.
  intros (-> & H)%match_dot_plus_sound. done.
Qed.


(** ** Build numbers written in decimal *)








(** ** Dictionaries in insertion order *)


Lemma dict_set_keys {V : Type} (d : list (string * V)) (k : string) (v : V) :
  forall k', k' ∈ map fst (dict_set d k v) <-> k' = k \/ k' ∈ map fst d.
Proof.
  intros k'. induction d as [|[k1 v1] d IH]; simpl.
  - rewrite list_elem_of_singleton, elem_of_nil. tauto.
  - destruct (String.eqb_spec k1 k) as [->|Hne]; simpl.
    + rewrite !elem_of_cons. tauto.
    + rewrite !elem_of_cons, IH. tauto.
Qed.

Lemma dict_set_NoDup {V : Type} (d : list (string * V)) (k : string) (v : V) :
  NoDup (map fst d) -> NoDup (map fst (dict_set d k v)).
Proof.
  induction d as [|[k1 v1] d IH]; simpl; intros Hnd.
  - apply NoDup_singleton.
  - apply NoDup_cons in Hnd as [Hk1 Hnd].
    destruct (String.eqb_spec k1 k) as [->|Hne]; simpl.
    + by apply NoDup_cons.
    + apply NoDup_cons. split; [|by apply IH].
      rewrite dict_set_keys. intros [?|?]; congruence.
Qed.

Lemma dict_set_values {V : Type} (P : V -> Prop) (d : list (string * V))
    (k : string) (v : V) :
  P v -> Forall (fun kv => P (snd kv)) d ->
  Forall (fun kv => P (snd kv)) (dict_set d k v).
Proof.
  intros Hv. induction d as [|[k1 v1] d IH]; simpl; intros Hd.
  - by repeat constructor.
  - apply Forall_cons in Hd as [H1 Hd].
    destruct (String.eqb k1 k); constructor; auto.
Qed.

(** ** The test outcomes of a client *)

Section ClientTests.
Variable s : Session.

(** The body of the loop of [get_client_test_outcomes]. *)
#[local] Abbreviation scan_step :=
  (fun (acc : result (list (string * Outcome))) (p : string * string) =>
     let* tests := acc in
     if endswith (fst p) ".rc" then
       let* rc := int_ (snd p) in
       Ok (dict_set tests (drop_last3 (fst p)) (if rc =? 0 then PASS else FAIL))
     else Ok tests).

Lemma scan_raise (entries : list (string * string)) (e : exn) :
  fold_left scan_step entries (Raise e) = Raise e.
Proof. induction entries as [|p entries IH]; [done|]. apply IH. Qed.

Lemma scan_skip (entries : list (string * string)) (p : string * string)
    (tests : list (string * Outcome)) :
  endswith (fst p) ".rc" = false ->
  fold_left scan_step (p :: entries) (Ok tests) = fold_left scan_step entries (Ok tests).
Proof. intros Hp. cbn [fold_left bind]. by rewrite Hp. Qed.

Lemma scan_take (entries : list (string * string)) (p : string * string)
    (tests : list (string * Outcome)) (rc : Z) :
  endswith (fst p) ".rc" = true -> int_ (snd p) = Ok rc ->
  fold_left scan_step (p :: entries) (Ok tests)
  = fold_left scan_step entries
      (Ok (dict_set tests (drop_last3 (fst p)) (if rc =? 0 then PASS else FAIL))).
Proof. intros Hp Hrc. cbn [fold_left bind]. by rewrite Hp, Hrc. Qed.

Lemma scan_fail (entries : list (string * string)) (p : string * string)
    (tests : list (string * Outcome)) (e : exn) :
  endswith (fst p) ".rc" = true -> int_ (snd p) = Raise e ->
  fold_left scan_step (p :: entries) (Ok tests) = Raise e.
Proof. intros Hp Hrc. cbn [fold_left bind]. rewrite Hp, Hrc. apply scan_raise. Qed.

Lemma scan_cases (entries : list (string * string)) (p : string * string)
    (t0 tests : list (string * Outcome)) :
  fold_left scan_step (p :: entries) (Ok t0) = Ok tests ->
  (endswith (fst p) ".rc" = false /\ fold_left scan_step entries (Ok t0) = Ok tests)
  \/ exists rc, endswith (fst p) ".rc" = true /\ int_ (snd p) = Ok rc
       /\ fold_left scan_step entries
            (Ok (dict_set t0 (drop_last3 (fst p)) (if rc =? 0 then PASS else FAIL)))
          = Ok tests.
Proof.
  destruct (endswith (fst p) ".rc") eqn:Hp.
  - destruct (int_ (snd p)) as [rc|e] eqn:Hrc.
    + rewrite (scan_take _ _ _ rc Hp Hrc). intros H. right. by exists rc.
    + by rewrite (scan_fail _ _ _ e Hp Hrc).
  - rewrite (scan_skip _ _ _ Hp). intros H. by left.
Qed.

Lemma scan_shape (entries : list (string * string)) (t0 tests : list (string * Outcome)) :
  fold_left scan_step entries (Ok t0) = Ok tests ->
  (NoDup (map fst t0) -> NoDup (map fst tests))
  /\ (Forall (fun kv => snd kv = PASS \/ snd kv = FAIL) t0 ->
      Forall (fun kv => snd kv = PASS \/ snd kv = FAIL) tests)
  /\ (forall k, k ∈ map fst tests
                <-> k ∈ map fst t0
                    \/ exists p, p ∈ entries /\ endswith (fst p) ".rc" = true
                                 /\ k = drop_last3 (fst p)).
Proof.
  revert t0. induction entries as [|p entries IH]; intros t0 H.
  - injection H as <-. repeat split; try done.
    + by left.
    + intros [?|(p & Hp & _)]; [done|]. by apply elem_of_nil in Hp.
  - apply scan_cases in H as [[Hp H]|(rc & Hp & Hrc & H)];
      destruct (IH _ H) as (Hnd & Hpf & Hkeys); clear IH.
    + repeat split; try done.
      * intros Hk. apply Hkeys in Hk as [?|(q & Hq & Hsuffix & ->)]; [by left|].
        right. exists q. split; [by right|done].
      * intros [Hk|(q & Hq & Hsuffix & ->)]; apply Hkeys; [by left|].
        apply elem_of_cons in Hq as [->|Hq]; [congruence|].
        right. by exists q.
    + repeat split.
      * intros Hnd0. by apply Hnd, dict_set_NoDup.
      * intros Hpf0. apply Hpf.
        apply (dict_set_values (fun v => v = PASS \/ v = FAIL)); [|done].
        destruct (rc =? 0); [by left|by right].
      * intros Hk. apply Hkeys in Hk as [Hk|(q & Hq & Hsuffix & ->)].
        -- apply dict_set_keys in Hk as [->|Hk]; [|by left].
           right. exists p. split; [by left|done].
        -- right. exists q. split; [by right|done].
      * intros [Hk|(q & Hq & Hsuffix & ->)]; apply Hkeys.
        -- left. apply dict_set_keys. by right.
        -- apply elem_of_cons in Hq as [->|Hq].
           ++ left. apply dict_set_keys. by left.
           ++ right. by exists q.
Qed.



Lemma get_client_test_outcomes_ok (artifact_url : string)
    (tests : list (string * Outcome)) :
  get_client_test_outcomes s artifact_url = Ok tests ->
  NoDup (map fst tests) /\ Forall (fun kv => snd kv = PASS \/ snd kv = FAIL) tests.
Proof.
  unfold get_client_test_outcomes.
  destruct (archive s artifact_url) as [entries|?]; cbn [bind]; [|done].
  intros H. apply scan_shape in H as (Hnd & Hpf & _).
  split; [apply Hnd|apply Hpf]; constructor.
Qed.

(** X5: what [get_client_test_outcomes] returns.  When it returns, the
    test names are pairwise different, they are exactly the names of the
    archive entries ending in [.rc] with these three characters removed,
    and every outcome is [PASS] or [FAIL]: a test never gets [ERROR] or
    [INCOMPLETE], and entries with another suffix leave no trace. *)
Theorem client_test_outcomes_shape (artifact_url : string)
    (entries : list (string * string)) (tests : list (string * Outcome)) :
  archive s artifact_url = Ok entries ->
  get_client_test_outcomes s artifact_url = Ok tests ->
  NoDup (map fst tests)
  /\ Forall (fun kv => snd kv = PASS \/ snd kv = FAIL) tests
  /\ (forall k, k ∈ map fst tests
                <-> exists p, p ∈ entries /\ endswith (fst p) ".rc" = true
                              /\ k = drop_last3 (fst p)).
Proof.
  intros Harchive. unfold get_client_test_outcomes. rewrite Harchive. cbn [bind].
  intros H. apply scan_shape in H as (Hnd & Hpf & Hkeys).
  split; [apply Hnd; constructor|]. split; [apply Hpf; constructor|].
  intros k. rewrite Hkeys. split; [|by right].
  intros [Hk|?]; [|done]. by apply elem_of_nil in Hk.
Qed.



End ClientTests.

(** ** Loops that skip, stop and collect *)

Lemma bind_assoc_ok {A B : Type} (m : result A) (k : A -> result B) (b : B) :
  bind m k = Ok b -> exists a, m = Ok a /\ k a = Ok b.
Proof. destruct m as [a|e]; [by exists a|done]. Qed.

Lemma mapM_app {A B : Type} (f : A -> result B) (xs ys : list A) :
  mapM f (xs ++ ys)%list
  = (let* bs := mapM f xs in let* cs := mapM f ys in Ok (bs ++ cs)%list).
Proof.
  induction xs as [|x xs IH]; simpl.
  - by destruct (mapM f ys).
  - destruct (f x) as [b|e]; cbn [bind]; [|done]. rewrite IH.
    destruct (mapM f xs) as [bs|e]; cbn [bind]; [|done].
    by destruct (mapM f ys).
Qed.

Lemma mapM_Forall {A B : Type} (f : A -> result B) (P : B -> Prop)
    (xs : list A) (bs : list B) :
  (forall x b, x ∈ xs -> f x = Ok b -> P b) ->
  mapM f xs = Ok bs -> Forall P bs.
Proof.
  revert bs. induction xs as [|x xs IH]; intros bs HP; simpl.
  - by intros [= <-].
  - destruct (f x) as [b|e] eqn:Hx; cbn [bind]; [|done].
    destruct (mapM f xs) as [bs'|e]; cbn [bind]; [|done].
    intros [= <-]. constructor.
    + apply (HP x b); [by left|done].
    + apply IH; [|done]. intros y c Hy. apply HP. by right.
Qed.

(** A loop whose body passes over the items that [keep] rejects, and
    appends [emit a] for the others, raising when [emit] does. *)
Section Collect.
Context {A B : Type}.
Variable body : list B -> A -> result (flow * list B).
Variable keep : A -> bool.
Variable emit : A -> result B.

Lemma for_each_collect (pre : list A) (g : Gen A) (acc : list B) :
  (forall a acc', a ∈ pre -> keep a = false -> body acc' a = Ok (Continue, acc')) ->
  (forall a acc', a ∈ pre -> keep a = true ->
                  body acc' a = (let* b := emit a in Ok (Continue, app acc' [b]))) ->
  for_each body (yield_from pre g) acc
  = match mapM emit (List.filter keep pre) with
    | Raise e => Some (Raise e)
    | Ok bs => for_each body g (app acc bs)
    end.
Proof.
  revert acc. induction pre as [|a pre IH]; intros acc Hskip Hkeep.
  - simpl. by rewrite app_nil_r.
  - cbn [yield_from fold_right for_each List.filter]. fold (yield_from pre g).
    destruct (keep a) eqn:Ha.
    + rewrite (Hkeep a acc) by (done || by left). cbn [mapM].
      destruct (emit a) as [b|e]; cbn [bind]; [|done].
      rewrite IH.
      * destruct (mapM emit _) as [bs|e]; cbn [bind]; [|done].
        by rewrite <- app_assoc.
      * intros a' acc' Hin. apply Hskip. by right.
      * intros a' acc' Hin. apply Hkeep. by right.
    + rewrite (Hskip a acc) by (done || by left). apply IH.
      * intros a' acc' Hin. apply Hskip. by right.
      * intros a' acc' Hin. apply Hkeep. by right.
Qed.
End Collect.

(** What a loop keeps true of its state holds of its result. *)
Lemma for_each_invariant {A St : Type} (body : St -> A -> result (flow * St))
    (I : St -> Prop) (g : Gen A) (st st' : St) :
  (forall st a fl st', I st -> body st a = Ok (fl, st') -> I st') ->
  I st -> for_each body g st = Some (Ok st') -> I st'.
Proof.
  intros Hbody. revert st. induction g as [|a rest IH|e|]; intros st Hst; simpl.
  - by intros [= <-].
  - destruct (body st a) as [[[|] st1]|e] eqn:Ha; [| |done].
    + apply IH. by apply (Hbody st a Continue).
    + intros [= <-]. by apply (Hbody st a Break).
  - done.
  - done.
Qed.

(** ** The loop over the client runs *)

Section ClientLoop.
Variable s : Session.
Variable cutoff : datetime.

Lemma client_run_body_eq (acc : list ClientEntry) (run : Run.t) :
  client_run_body s cutoff acc run
  = if client_considers run then
      let* old := datetime_le (ensure_aware (Run.created_at run)) cutoff in
      if old then Ok (Break, acc)
      else let* e := make_client_entry s run in Ok (Continue, app acc [e])
    else Ok (Continue, acc).
Proof.
  unfold client_run_body, client_considers, make_client_entry.
  destruct (String.eqb _ _); cbn [negb]; [|done].
  destruct (datetime_le _ _) as [[|]|?]; cbn [bind]; [done| |done].
  destruct (fullmatch_result _) as [[m1 m2]|]; [|done].
  destruct (from_conclusion _) as [oc|?]; cbn [bind]; [|done].
  destruct (decide (oc = PASS)) as [Hpass|Hpass].
  - destruct (artifacts _ _) as [arts|?]; cbn [bind]; [|done].
    destruct (unpack_one _) as [artifact|?]; cbn [bind]; [|done].
    destruct (int_ _) as [?|?]; cbn [bind]; [|done].
    by destruct (get_client_test_outcomes _ _) as [tests|?].
  - by destruct (int_ _) as [?|?].
Qed.

(** X8: the client loop looks only at the runs it retains.  Runs that
    are not completed are passed over, and the first completed run
    created at or before the cutoff ends the loop; neither the branch
    name nor the conclusion of such runs is read, so they cannot fail
    the assertion on the branch name or the classification.  The result
    is the list of the entries of the completed runs before that one, in
    order, or the first exception raised while building one of them. *)
Theorem client_loop_scan (pre : list Run.t) (old : Run.t) (rest : Gen Run.t)
    (wfname : string) :
  Forall (fun run =>
            client_considers run = true ->
            datetime_le (ensure_aware (Run.created_at run)) cutoff = Ok false) pre ->
  client_considers old = true ->
  datetime_le (ensure_aware (Run.created_at old)) cutoff = Ok true ->
  let entries := mapM (make_client_entry s) (List.filter client_considers pre) in
  for_each (client_run_body s cutoff) (yield_from pre (Yield old rest)) [] = Some entries
  /\ for_each (client_run_body s cutoff) (yield_from pre Stop) [] = Some entries
  /\ (workflow s CLIENTS_REPO CLIENTS_WORKFLOW
      = Ok (wfname, yield_from pre (Yield old rest)) ->
      client_loop s cutoff = Some entries).
Proof.
  intros Hpre Hold Hcut entries.
  assert (forall g,
            for_each (client_run_body s cutoff) (yield_from pre g) []
            = match entries with
              | Raise e => Some (Raise e)
              | Ok bs => for_each (client_run_body s cutoff) g bs
              end) as Hscan.
  { intros g.
    apply (for_each_collect (client_run_body s cutoff) client_considers
             (make_client_entry s) pre g []).
    - intros run acc Hin Hrun. by rewrite client_run_body_eq, Hrun.
    - intros run acc Hin Hrun. rewrite client_run_body_eq, Hrun.
      rewrite Forall_forall in Hpre. by rewrite (Hpre run Hin Hrun). }
  assert (for_each (client_run_body s cutoff) (yield_from pre (Yield old rest)) []
          = Some entries) as Hstop.
  { rewrite Hscan. destruct entries as [bs|e]; [|done].
    cbn [for_each]. by rewrite client_run_body_eq, Hold, Hcut. }
  split; [done|]. split.
  - rewrite Hscan. by destruct entries.
  - intros Hwf. unfold client_loop. by rewrite Hwf.
Qed.

Lemma decimal_fold_nonneg (digits : string) (acc : Z) :
  0 <= acc ->
  forallb is_digit (list_ascii_of_string digits) = true ->
  0 <= fold_left (fun acc c => 10 * acc + digit_value c)
         (list_ascii_of_string digits) acc.
Proof.
  revert acc. induction digits as [|c digits IH]; intros acc Hacc; simpl; [done|].
  intros [Hc Hd]%andb_prop. apply IH; [|done].
  unfold is_digit in Hc. apply andb_prop in Hc as [Hc _]. apply Nat.leb_le in Hc.
  unfold digit_value. lia.
Qed.

Lemma make_client_entry_shape (run : Run.t) (e : ClientEntry) :
  make_client_entry s run = Ok e ->
  exists m1 m2,
    fullmatch_result (Run.head_branch run) = Some (m1, m2)
    /\ client_id e = m1
    /\ client_build_id e = decimal_value m2
    /\ client_timestamp e = ensure_aware (Run.created_at run)
    /\ match e with
       | Status c =>
           from_conclusion (Run.conclusion run) = Ok PASS
           /\ NoDup (map fst (ClientStatus.tests c))
           /\ Forall (fun kv => snd kv = PASS \/ snd kv = FAIL) (ClientStatus.tests c)
       | ProcessError pe =>
           (exists oc, from_conclusion (Run.conclusion run) = Ok oc /\ oc <> PASS)
           /\ ResultProcessError.url pe = Run.html_url run
       end.
Proof.
  unfold make_client_entry.
  destruct (fullmatch_result _) as [[m1 m2]|] eqn:Hm; [|done].
  pose proof Hm as (_ & _ & _ & Hne & Hd)%fullmatch_result_iff_helper.
  destruct (from_conclusion _) as [oc|?]; cbn [bind]; [|done].
  destruct (decide (oc = PASS)) as [->|Hoc].
  - destruct (artifacts _ _) as [arts|?]; cbn [bind]; [|done].
    destruct (unpack_one _) as [artifact|?]; cbn [bind]; [|done].
    rewrite (int_digits_ok m2 Hne Hd). cbn [bind].
    destruct (get_client_test_outcomes _ _) as [tests|?] eqn:Ht; cbn [bind]; [|done].
    intros [= <-]. exists m1, m2. repeat split; try done;
      by apply get_client_test_outcomes_ok in Ht as [? ?].
  - rewrite (int_digits_ok m2 Hne Hd). cbn [bind].
    intros [= <-]. exists m1, m2. repeat split; try done. by exists oc.
Qed.

(** X9: what the client loop keeps true of its list.  Every entry of a
    list that the loop returns was created after the cutoff and has an
    aware timestamp; its client identifier is not empty, its build number
    is not negative, and its branch was [result-<client>-<digits>]; the
    tests of a client run have pairwise different names and outcomes
    [PASS] or [FAIL] only. *)
Theorem client_loop_entries (entries : list ClientEntry) :
  client_loop s cutoff = Some (Ok entries) ->
  Forall (fun e =>
            datetime_le (client_timestamp e) cutoff = Ok false
            /\ (exists o, utcoffset (client_timestamp e) = Some o)
            /\ client_id e <> EmptyString
            /\ 0 <= client_build_id e
            /\ match e with
               | Status c =>
                   NoDup (map fst (ClientStatus.tests c))
                   /\ Forall (fun kv => snd kv = PASS \/ snd kv = FAIL)
                        (ClientStatus.tests c)
               | ProcessError _ => True
               end) entries.
Proof.
  unfold client_loop.
  destruct (workflow s CLIENTS_REPO CLIENTS_WORKFLOW) as [[wfname runs]|?]; [|done].
  apply for_each_invariant; [|constructor].
  intros acc run fl acc' Hacc. rewrite client_run_body_eq.
  destruct (client_considers run); [|by intros [= _ <-]].
  destruct (datetime_le _ _) as [[|]|?] eqn:Hcut; cbn [bind]; [by intros [= _ <-]| |done].
  destruct (make_client_entry s run) as [e|?] eqn:He; cbn [bind]; [|done].
  intros [= _ <-]. apply Forall_app. split; [done|]. apply Forall_singleton.
  apply make_client_entry_shape in He as (m1 & m2 & Hm & Hid & Hbuild & Hts & Hkind).
  apply fullmatch_result_iff_helper in Hm as (_ & Hne1 & _ & Hne2 & Hd).
  rewrite Hts, Hid, Hbuild. repeat split; try done.
  - unfold ensure_aware. destruct (utcoffset (Run.created_at run)) eqn:Ho; eauto.
  - by apply decimal_fold_nonneg.
  - destruct e; [|done]. by destruct Hkind as (_ & ? & ?).
Qed.

(** X10: the artifact of a passing client run.  For a completed run
    newer than the cutoff, on a well-formed branch, with the conclusion
    [success]: when the run has exactly one artifact and its archive is
    read, the loop appends a client run with the client and build number
    of the branch, the logs address made of the suite and artifact
    numbers, and the tests of the archive; when it has no artifact or
    more than one, the unpacking raises [ValueError] and nothing is
    appended. *)
Theorem passing_client_run_needs_one_artifact (client_statuses : list ClientEntry)
    (run : Run.t) (cid num : string) :
  Run.status run = "completed" ->
  datetime_le (ensure_aware (Run.created_at run)) cutoff = Ok false ->
  fullmatch_result (Run.head_branch run) = Some (cid, num) ->
  Run.conclusion run = "success" ->
  (forall artifact tests,
     artifacts s (Run.artifacts_url run) = Ok [artifact] ->
     get_client_test_outcomes s (Artifact.archive_download_url artifact) = Ok tests ->
     client_run_body s cutoff client_statuses run
     = Ok (Continue,
           app client_statuses
             [Status
                {| ClientStatus.client_id := cid;
                   ClientStatus.build_id := decimal_value num;
                   ClientStatus.timestamp := ensure_aware (Run.created_at run);
                   ClientStatus.artifact_url :=
                     "https://github.com/datalad/git-annex-ci-client-jobs/suites/"
                       +:+ pretty (Run.check_suite_id run) +:+ "/artifacts/"
                       +:+ pretty (Artifact.id artifact);
                   ClientStatus.tests := tests |}]))
  /\ (forall arts,
        artifacts s (Run.artifacts_url run) = Ok arts ->
        length arts <> 1%nat ->
        exists msg arg,
          client_run_body s cutoff client_statuses run = Raise (ValueError msg arg)).
Proof.
  intros Hstatus Hnew Hm Hconcl.
  pose proof Hm as (_ & _ & _ & Hne & Hd)%fullmatch_result_iff_helper.
  assert (client_considers run = true) as Hcons.
  { unfold client_considers. by rewrite Hstatus. }
  split.
  - intros artifact tests Harts Htests.
    rewrite client_run_body_eq, Hcons, Hnew. cbn [bind].
    unfold make_client_entry. rewrite Hm, Hconcl.
    change (from_conclusion "success") with (Ok PASS). cbn [bind].
    rewrite decide_True by done. rewrite Harts. cbn [bind unpack_one].
    by rewrite (int_digits_ok num Hne Hd), Htests.
  - intros arts Harts Hlen.
    rewrite client_run_body_eq, Hcons, Hnew. cbn [bind].
    unfold make_client_entry. rewrite Hm, Hconcl.
    change (from_conclusion "success") with (Ok PASS). cbn [bind].
    rewrite decide_True by done. rewrite Harts. cbn [bind].
    destruct arts as [|a [|b arts]]; [|done|]; cbn [unpack_one bind]; by eexists _, _.
Qed.

End ClientLoop.

(** ** The loop over the hosted workflows *)

Section GithubLoop.
Variable isoparse : string -> result datetime.
Variable s : Session.
Variable cutoff : datetime.

Lemma github_run_body_eq (wffilename wfname : string) (acc : list WorkflowStatus.t)
    (run : Run.t) :
  github_run_body isoparse s cutoff wffilename wfname acc run
  = if github_considers run then
      let* old := datetime_le (ensure_aware (Run.created_at run)) cutoff in
      if old then Ok (Break, acc)
      else
        let* w := make_workflow_status isoparse s wffilename wfname run in
        Ok (Continue, app acc [w])
    else Ok (Continue, acc).
Proof.
  unfold github_run_body, github_considers, make_workflow_status.
  destruct (String.eqb _ _); cbn [negb orb andb]; [|done].
  destruct (str_in _ _); cbn [negb]; [|done].
  destruct (datetime_le _ _) as [[|]|?]; cbn [bind]; [done| |done].
  destruct (jobs _ _) as [js|?]; cbn [bind]; [|done].
  destruct (mapM _ js) as [job_statuses|?]; cbn [bind]; [|done].
  by destruct (from_conclusion _) as [oc|?].
Qed.

(** X11: the loop over the runs of one hosted workflow.  Runs that are
    not completed, or that were triggered by something other than the
    schedule or a manual dispatch, are passed over whatever their age:
    an old run of another kind does not end the loop.  The first
    completed scheduled or dispatched run created at or before the
    cutoff ends it.  The result is the list of the records of the
    considered runs before that one, in order, after the records
    collected for the earlier workflows, or the first exception raised
    while building one of them. *)
Theorem github_runs_scan (wffilename wfname : string) (pre : list Run.t)
    (old : Run.t) (rest : Gen Run.t) (github_statuses : list WorkflowStatus.t) :
  Forall (fun run =>
            github_considers run = true ->
            datetime_le (ensure_aware (Run.created_at run)) cutoff = Ok false) pre ->
  github_considers old = true ->
  datetime_le (ensure_aware (Run.created_at old)) cutoff = Ok true ->
  let added :=
    mapM (make_workflow_status isoparse s wffilename wfname)
      (List.filter github_considers pre) in
  let expected :=
    match added with
    | Ok ws => Ok (app github_statuses ws)
    | Raise e => Raise e
    end in
  for_each (github_run_body isoparse s cutoff wffilename wfname)
    (yield_from pre (Yield old rest)) github_statuses = Some expected
  /\ for_each (github_run_body isoparse s cutoff wffilename wfname)
       (yield_from pre Stop) github_statuses = Some expected.
Proof.
  intros Hpre Hold Hcut added expected.
  assert (forall g,
            for_each (github_run_body isoparse s cutoff wffilename wfname)
              (yield_from pre g) github_statuses
            = match added with
              | Raise e => Some (Raise e)
              | Ok ws =>
                  for_each (github_run_body isoparse s cutoff wffilename wfname) g
                    (app github_statuses ws)
              end) as Hscan.
  { intros g.
    apply (for_each_collect (github_run_body isoparse s cutoff wffilename wfname)
             github_considers (make_workflow_status isoparse s wffilename wfname)).
    - intros run acc Hin Hrun. by rewrite github_run_body_eq, Hrun.
    - intros run acc Hin Hrun. rewrite github_run_body_eq, Hrun.
      rewrite Forall_forall in Hpre. by rewrite (Hpre run Hin Hrun). }
  split; rewrite Hscan; subst expected; destruct added as [ws|e]; try done.
  cbn [for_each]. by rewrite github_run_body_eq, Hold, Hcut.
Qed.

Lemma make_job_status_outcome (j : RawJob.t) (js : JobStatus.t) :
  make_job_status isoparse j = Ok js ->
  from_conclusion (RawJob.conclusion j) = Ok (JobStatus.outcome js).
Proof.
  unfold make_job_status.
  destruct (isoparse _) as [ts|?]; cbn [bind]; [|done].
  destruct (from_conclusion _) as [oc|?]; cbn [bind]; [|done].
  by intros [= <-].
Qed.

Lemma from_conclusion_not_error (status : string) (oc : Outcome) :
  from_conclusion status = Ok oc -> oc <> ERROR.
Proof.
  unfold from_conclusion.
  change (Outcome_getattr "PASS") with (Ok PASS).
  change (Outcome_getattr "FAIL") with (Ok FAIL).
  change (Outcome_getattr "INCOMPLETE") with (Ok INCOMPLETE).
  change (Outcome_getattr "ERRROR")
    with (@Raise Outcome (AttributeError "Outcome" "ERRROR")).
  destruct (String.eqb status "success"); [by intros [= <-]|].
  destruct (String.eqb status "failure"); [by intros [= <-]|].
  destruct (String.eqb status "timed_out"); [done|].
  destruct (str_in status _); [by intros [= <-]|done].
Qed.

Lemma make_workflow_status_shape (wffilename wfname : string) (run : Run.t)
    (w : WorkflowStatus.t) :
  make_workflow_status isoparse s wffilename wfname run = Ok w ->
  WorkflowStatus.file w = wffilename
  /\ WorkflowStatus.timestamp w = ensure_aware (Run.created_at run)
  /\ WorkflowStatus.outcome w <> ERROR
  /\ Forall (fun j => JobStatus.outcome j <> ERROR) (WorkflowStatus.jobs w).
Proof.
  unfold make_workflow_status.
  destruct (jobs _ _) as [js|?]; cbn [bind]; [|done].
  destruct (mapM _ js) as [job_statuses|?] eqn:Hjobs; cbn [bind]; [|done].
  destruct (from_conclusion _) as [oc|?] eqn:Hoc; cbn [bind]; [|done].
  intros [= <-]. simpl. repeat split.
  - by apply from_conclusion_not_error in Hoc.
  - apply (mapM_Forall _ _ _ _ (fun j b _ Hb =>
             from_conclusion_not_error _ _ (make_job_status_outcome j b Hb)) Hjobs).
Qed.

Lemma github_loop_invariant (P : list string -> WorkflowStatus.t -> Prop)
    (files : list string) (acc res : list WorkflowStatus.t) :
  (forall f fs w, P fs w -> P (f :: fs) w) ->
  (forall f fs wfname run w,
     github_considers run = true ->
     datetime_le (ensure_aware (Run.created_at run)) cutoff = Ok false ->
     make_workflow_status isoparse s f wfname run = Ok w -> P (f :: fs) w) ->
  github_loop isoparse s cutoff files acc = Some (Ok res) ->
  exists added, res = app acc added /\ Forall (P files) added.
Proof.
  intros Hmono Hmake. revert acc.
  induction files as [|f files IH]; intros acc; simpl.
  - intros [= <-]. exists []. by rewrite app_nil_r.
  - destruct (workflow s WORKFLOW_REPO f) as [[wfname runs]|?]; [|done].
    destruct (for_each _ runs acc) as [[acc'|?]|] eqn:Hruns; [|done|done].
    intros Hrest. apply IH in Hrest as (added2 & -> & Hadded2).
    assert (exists added1, acc' = app acc added1 /\ Forall (P (f :: files)) added1)
      as (added1 & -> & Hadded1).
    { revert Hruns.
      apply (for_each_invariant _
               (fun st => exists added1,
                    st = app acc added1 /\ Forall (P (f :: files)) added1)).
      - intros st run fl st' (added & -> & Hadded). rewrite github_run_body_eq.
        destruct (github_considers run) eqn:Hrun; [|intros [= _ <-]; eauto].
        destruct (datetime_le _ _) as [[|]|?] eqn:Hcut; cbn [bind];
          [intros [= _ <-]; eauto| |done].
        destruct (make_workflow_status _ _ _ _ _) as [w|?] eqn:Hw; cbn [bind]; [|done].
        intros [= _ <-]. exists (app added [w]). split; [by rewrite app_assoc|].
        apply Forall_app. split; [done|]. apply Forall_singleton. eauto.
      - exists []. by rewrite app_nil_r. }
    exists (app added1 added2). split; [by rewrite app_assoc|].
    apply Forall_app. split; [done|].
    eapply Forall_impl; [exact Hadded2|]. intros w. apply Hmono.
Qed.

(** X12: what the hosted loop keeps true of its list.  Every record of a
    list that the loop over [WORKFLOWS] returns belongs to one of the
    three workflow files, was created after the cutoff, and has an aware
    timestamp; neither its outcome nor the outcome of any of its jobs is
    [ERROR], since no conclusion classifies as [ERROR] without raising. *)
Theorem github_loop_records (github_statuses : list WorkflowStatus.t) :
  github_loop isoparse s cutoff WORKFLOWS [] = Some (Ok github_statuses) ->
  Forall (fun w =>
            WorkflowStatus.file w ∈ WORKFLOWS
            /\ datetime_le (WorkflowStatus.timestamp w) cutoff = Ok false
            /\ (exists o, utcoffset (WorkflowStatus.timestamp w) = Some o)
            /\ WorkflowStatus.outcome w <> ERROR
            /\ Forall (fun j => JobStatus.outcome j <> ERROR) (WorkflowStatus.jobs w))
    github_statuses.
Proof.
  intros Hloop.
  apply (github_loop_invariant
           (fun fs w =>
              WorkflowStatus.file w ∈ fs
              /\ datetime_le (WorkflowStatus.timestamp w) cutoff = Ok false
              /\ (exists o, utcoffset (WorkflowStatus.timestamp w) = Some o)
              /\ WorkflowStatus.outcome w <> ERROR
              /\ Forall (fun j => JobStatus.outcome j <> ERROR) (WorkflowStatus.jobs w)))
    in Hloop as (added & -> & Hadded); [done| |].
  - intros f fs w (Hfile & H). split; [by right|done].
  - intros f fs wfname run w Hrun Hcut Hw.
    apply make_workflow_status_shape in Hw as (-> & -> & Hoc & Hjobs).
    repeat split; try done; [by left|].
    unfold ensure_aware. destruct (utcoffset (Run.created_at run)) eqn:Ho; eauto.
Qed.

(** X13: a job that timed out aborts the hosted loop.  When the loop
    retains a run whose job listing holds a job with the conclusion
    [timed_out], after jobs whose records are built without exception,
    and the start time of that job is read, the body of the loop raises
    the [AttributeError] of the misspelt member: no record is appended
    for the run, and the whole loop over its workflow ends with that
    exception. *)
Theorem timed_out_job_aborts_github_loop (wffilename wfname : string)
    (github_statuses : list WorkflowStatus.t) (run : Run.t) (rest : Gen Run.t)
    (before after : list RawJob.t) (j : RawJob.t) (ts : datetime) :
  github_considers run = true ->
  datetime_le (ensure_aware (Run.created_at run)) cutoff = Ok false ->
  jobs s (Run.jobs_url run) = Ok (app before (j :: after)) ->
  Forall (fun j' => exists js, make_job_status isoparse j' = Ok js) before ->
  isoparse (RawJob.started_at j) = Ok ts ->
  RawJob.conclusion j = "timed_out" ->
  github_run_body isoparse s cutoff wffilename wfname github_statuses run
  = Raise (AttributeError "Outcome" "ERRROR")
  /\ for_each (github_run_body isoparse s cutoff wffilename wfname)
       (Yield run rest) github_statuses
     = Some (Raise (AttributeError "Outcome" "ERRROR")).
Proof.
  intros Hrun Hcut Hjobs Hbefore Hts Hconcl.
  assert (github_run_body isoparse s cutoff wffilename wfname github_statuses run
          = Raise (AttributeError "Outcome" "ERRROR")) as Hbody.
  { rewrite github_run_body_eq, Hrun, Hcut. cbn [bind].
    unfold make_workflow_status. rewrite Hjobs. cbn [bind]. rewrite mapM_app.
    assert (exists bs, mapM (make_job_status isoparse) before = Ok bs) as [bs ->].
    { clear Hjobs. induction Hbefore as [|j' before [js Hj] _ [bs IH]]; [by eexists|].
      exists (js :: bs). simpl. by rewrite Hj, IH. }
    cbn [bind mapM]. unfold make_job_status at 1. by rewrite Hts, Hconcl. }
  split; [done|]. cbn [for_each]. by rewrite Hbody.
Qed.

End GithubLoop.

(** ** The pages of the Appveyor history *)

Section AppveyorPages.
Variable isoparse : string -> result datetime.
Variable s : Session.
Variable cutoff : datetime.

Lemma get_appveyor_builds_pages (pages : list (list RawBuild.t)) (fuel : nat)
    (startBuildId : option Z) :
  served s startBuildId pages ->
  get_appveyor_builds s (length pages + fuel) startBuildId
  = yield_from (concat pages)
      (get_appveyor_builds s fuel (next_cursor startBuildId pages)).
Proof.
  revert startBuildId. induction pages as [|page pages IH]; intros startBuildId Hs.
  - done.
  - destruct page as [|b0 bs]; [done|]. destruct Hs as [Hpage Hs].
    cbn [length Nat.add get_appveyor_builds]. rewrite Hpage, (IH _ Hs).
    cbn [concat]. by rewrite yield_from_app.
Qed.

(** X14: how [get_appveyor_builds] walks the history.  When the service
    answers the first request and each request that carries the
    identifier of the last build of the page before with a non-empty
    page, the generator yields the builds of these pages in order, one
    request for each page.  It then ends normally if the next page is
    empty, and raises the failure of the next request otherwise, after
    all these builds have been yielded.  When the history ends and no
    build finished at or before the cutoff, the loop of [main] retains
    every build that has a finish timestamp. *)
Theorem appveyor_history_pages (pages : list (list RawBuild.t)) :
  served s None pages ->
  get_appveyor_builds s (length pages) None = yield_from (concat pages) Pending
  /\ (history s (next_cursor None pages) = Ok [] ->
      get_appveyor_builds s (S (length pages)) None = yield_from (concat pages) Stop)
  /\ (forall e, history s (next_cursor None pages) = Raise e ->
        get_appveyor_builds s (S (length pages)) None
        = yield_from (concat pages) (Fail e))
  /\ (history s (next_cursor None pages) = Ok [] ->
      Forall (fun x =>
                RawBuild.finished x = None
                \/ exists t d, RawBuild.finished x = Some t /\ isoparse t = Ok d
                               /\ datetime_le d cutoff = Ok false) (concat pages) ->
      appveyor_loop isoparse s cutoff (S (length pages))
      = Some (mapM (make_appveyor_build isoparse s)
                (filter (fun x => is_Some (RawBuild.finished x)) (concat pages)))).
Proof.
  intros Hserved.
  pose proof (get_appveyor_builds_pages pages 0 None Hserved) as H0.
  pose proof (get_appveyor_builds_pages pages 1 None Hserved) as H1.
  rewrite Nat.add_0_r in H0. rewrite Nat.add_1_r in H1.
  split; [exact H0|].
  assert (history s (next_cursor None pages) = Ok [] ->
          get_appveyor_builds s (S (length pages)) None = yield_from (concat pages) Stop)
    as Hend.
  { intros Hlast. rewrite H1. cbn [get_appveyor_builds]. by rewrite Hlast. }
  split; [exact Hend|]. split.
  - intros e Hlast. rewrite H1. cbn [get_appveyor_builds]. by rewrite Hlast.
  - intros Hlast Hfresh. unfold appveyor_loop, appveyor_scan. rewrite (Hend Hlast).
    rewrite (appveyor_scan_prefix isoparse s cutoff _ Stop [] Hfresh).
    by destruct (mapM _ _).
Qed.

End AppveyorPages.

(** ** The counter behind the subject *)

#[local] Abbreviation counter_keys := (map (fst : Outcome * nat -> Outcome)).

Lemma counter_add_keys (c : Counter) (k k' : Outcome) (n : nat) :
  k' ∈ counter_keys (counter_add c k n) <-> k' = k \/ k' ∈ counter_keys c.
Proof.
  induction c as [|[k1 m] c IH]; simpl.
  - rewrite list_elem_of_singleton, elem_of_nil. tauto.
  - destruct (decide (k1 = k)) as [->|Hne]; simpl.
    + rewrite !elem_of_cons. tauto.
    + rewrite !elem_of_cons, IH. tauto.
Qed.

Lemma counter_add_NoDup (c : Counter) (k : Outcome) (n : nat) :
  NoDup (counter_keys c) -> NoDup (counter_keys (counter_add c k n)).
Proof.
  induction c as [|[k1 m] c IH]; simpl; intros Hnd.
  - apply NoDup_singleton.
  - apply NoDup_cons in Hnd as [Hk1 Hnd].
    destruct (decide (k1 = k)) as [->|Hne]; simpl.
    + by apply NoDup_cons.
    + apply NoDup_cons. split; [|by apply IH].
      rewrite counter_add_keys. intros [?|?]; congruence.
Qed.

Lemma counter_add_positive (c : Counter) (k : Outcome) (n : nat) :
  (0 < n)%nat -> Forall (fun kn => (0 < snd kn)%nat) c ->
  Forall (fun kn => (0 < snd kn)%nat) (counter_add c k n).
Proof.
  intros Hn. induction c as [|[k1 m] c IH]; simpl; intros Hc.
  - by repeat constructor.
  - apply Forall_cons in Hc as [Hm Hc]. simpl in Hm.
    destruct (decide (k1 = k)); constructor; simpl; auto with lia.
Qed.

Lemma counter_add_sum (c : Counter) (k : Outcome) (n : nat) :
  sum_list_with snd (counter_add c k n) = (sum_list_with snd c + n)%nat.
Proof.
  induction c as [|[k1 m] c IH]; simpl; [lia|].
  destruct (decide (k1 = k)); simpl; [lia|]. rewrite IH. lia.
Qed.

(** The keys of a counter after a new key: the key goes last unless it
    is there already. *)
#[local] Abbreviation add_key :=
  (fun (l : list Outcome) (k : Outcome) => if decide (k ∈ l) then l else (l ++ [k])%list).

(** The elements of a list in the order of their first occurrence. *)
#[local] Abbreviation first_seen :=
  (fun l : list Outcome => reverse (remove_dups (reverse l))).

Lemma counter_add_key_order (c : Counter) (k : Outcome) (n : nat) :
  counter_keys (counter_add c k n) = add_key (counter_keys c) k.
Proof.
  induction c as [|[k1 m] c IH]; cbn [counter_add map fst].
  - rewrite decide_False; [done|]. apply not_elem_of_nil.
  - destruct (decide (k1 = k)) as [->|Hne]; cbn [map fst].
    + rewrite decide_True; [done|]. by left.
    + rewrite IH. cbv beta. destruct (decide (k ∈ counter_keys c)) as [Hin|Hnin].
      * rewrite decide_True; [done|]. by right.
      * rewrite decide_False; [done|]. intros [?|?]%elem_of_cons; congruence.
Qed.

Lemma add_key_elem_of (l : list Outcome) (k k' : Outcome) :
  k' ∈ add_key l k <-> k' = k \/ k' ∈ l.
Proof.
  cbv beta. destruct (decide (k ∈ l)) as [Hin|Hnin].
  - split; [by right|]. intros [->|?]; done.
  - rewrite elem_of_app, list_elem_of_singleton. tauto.
Qed.

Lemma fold_add_key_elem_of (ys l : list Outcome) (k : Outcome) :
  k ∈ fold_left add_key ys l <-> k ∈ l \/ k ∈ ys.
Proof.
  revert l. induction ys as [|y ys IH]; intros l; cbn [fold_left].
  - rewrite elem_of_nil. tauto.
  - rewrite IH, add_key_elem_of, elem_of_cons. tauto.
Qed.

Lemma fold_add_key_twice (ys l : list Outcome) :
  fold_left add_key (fold_left add_key ys []) l = fold_left add_key ys l.
Proof.
  induction ys as [|y ys IH] using rev_ind; [done|].
  rewrite !fold_left_app. cbn [fold_left].
  destruct (decide (y ∈ fold_left add_key ys [])) as [Hin|Hnin].
  - rewrite IH. rewrite decide_True; [done|].
    apply fold_add_key_elem_of. right.
    apply fold_add_key_elem_of in Hin as [Hin|Hin]; [by apply elem_of_nil in Hin|done].
  - by rewrite fold_left_app, IH.
Qed.

Lemma first_seen_snoc (xs : list Outcome) (y : Outcome) :
  first_seen (xs ++ [y])%list = add_key (first_seen xs) y.
Proof.
  cbv beta. rewrite reverse_app. change (reverse [y]) with [y]. cbn [app remove_dups].
  destruct (decide_rel elem_of y (reverse xs)) as [Hin|Hnin].
  - rewrite decide_True; [done|].
    rewrite elem_of_reverse, elem_of_remove_dups. done.
  - rewrite decide_False.
    + by rewrite reverse_cons.
    + rewrite elem_of_reverse, elem_of_remove_dups. done.
Qed.

Lemma first_seen_app (xs ys : list Outcome) :
  first_seen (xs ++ ys)%list = fold_left add_key ys (first_seen xs).
Proof.
  revert xs. induction ys as [|y ys IH]; intros xs.
  - by rewrite app_nil_r.
  - cbn [fold_left]. rewrite <- first_seen_snoc, <- IH. by rewrite <- app_assoc.
Qed.

Lemma count_into_keys (ys : list Outcome) (c : Counter) :
  counter_keys (fold_left (fun c x => counter_add c x 1%nat) ys c)
  = fold_left add_key ys (counter_keys c).
Proof.
  revert c. induction ys as [|y ys IH]; intros c; [done|].
  cbn [fold_left]. by rewrite IH, counter_add_key_order.
Qed.

Lemma Counter_update_keys (d c : Counter) :
  counter_keys (Counter_update c d) = fold_left add_key (counter_keys d) (counter_keys c).
Proof.
  unfold Counter_update. revert c. induction d as [|[k n] d IH]; intros c; [done|].
  cbn [fold_left map fst]. by rewrite IH, counter_add_key_order.
Qed.

Lemma Counter_update_of_keys (c : Counter) (xs ys : list Outcome) :
  counter_keys c = first_seen xs ->
  counter_keys (Counter_update c (Counter_of ys)) = first_seen (xs ++ ys)%list.
Proof.
  intros Hc. rewrite Counter_update_keys. unfold Counter_of.
  rewrite count_into_keys. cbn [map]. rewrite fold_add_key_twice, Hc.
  by rewrite first_seen_app.
Qed.

Lemma Counter_update_of_NoDup (c : Counter) (ys : list Outcome) :
  NoDup (counter_keys c) -> NoDup (counter_keys (Counter_update c (Counter_of ys))).
Proof.
  unfold Counter_update. generalize (Counter_of ys) as d. intros d. revert c.
  induction d as [|[k n] d IH]; intros c Hc; [done|].
  cbn [fold_left]. apply IH. by apply counter_add_NoDup.
Qed.

Lemma count_into_positive (ys : list Outcome) (c : Counter) :
  Forall (fun kn => (0 < snd kn)%nat) c ->
  Forall (fun kn => (0 < snd kn)%nat) (fold_left (fun c x => counter_add c x 1%nat) ys c).
Proof.
  revert c. induction ys as [|y ys IH]; intros c Hc; [done|].
  cbn [fold_left]. apply IH. apply counter_add_positive; [lia|done].
Qed.

Lemma Counter_update_of_positive (c : Counter) (ys : list Outcome) :
  Forall (fun kn => (0 < snd kn)%nat) c ->
  Forall (fun kn => (0 < snd kn)%nat) (Counter_update c (Counter_of ys)).
Proof.
  assert (Forall (fun kn => (0 < snd kn)%nat) (Counter_of ys)) as Hd.
  { apply count_into_positive. constructor. }
  unfold Counter_update. revert Hd. generalize (Counter_of ys) as d. intros d Hd. revert c.
  induction Hd as [|[k n] d Hn Hd IH]; intros c Hc; [done|].
  cbn [fold_left]. apply IH. by apply counter_add_positive.
Qed.

(** The facts about the counter of a loop of [get_subject_body]. *)
Section TallyShape.
Context {A St : Type}.
Variable step : St -> A -> St.
Variable qtys_of : St -> Counter.
Variable outs : A -> list Outcome.
Hypothesis step_tally :
  forall st x, qtys_of (step st x) = Counter_update (qtys_of st) (Counter_of (outs x)).

Lemma fold_tally_shape (xs : list A) (st : St) (seen : list Outcome) :
  NoDup (counter_keys (qtys_of st)) ->
  Forall (fun kn => (0 < snd kn)%nat) (qtys_of st) ->
  counter_keys (qtys_of st) = first_seen seen ->
  NoDup (counter_keys (qtys_of (fold_left step xs st)))
  /\ Forall (fun kn => (0 < snd kn)%nat) (qtys_of (fold_left step xs st))
  /\ counter_keys (qtys_of (fold_left step xs st))
     = first_seen (seen ++ concat (map outs xs))%list.
Proof.
  revert st seen. induction xs as [|x xs IH]; intros st seen Hnd Hpos Hkeys.
  - simpl. by rewrite app_nil_r.
  - cbn [fold_left map concat]. rewrite app_assoc. apply IH; rewrite step_tally.
    + by apply Counter_update_of_NoDup.
    + by apply Counter_update_of_positive.
    + by apply Counter_update_of_keys.
Qed.
End TallyShape.

Lemma Counter_update_sum (d c : Counter) :
  sum_list_with snd (Counter_update c d)
  = (sum_list_with snd c + sum_list_with snd d)%nat.
Proof.
  unfold Counter_update. revert c. induction d as [|[k n] d IH]; intros c; simpl; [lia|].
  rewrite IH, counter_add_sum. lia.
Qed.

Lemma Counter_of_sum (ys : list Outcome) :
  sum_list_with snd (Counter_of ys) = length ys.
Proof.
  unfold Counter_of.
  assert (forall c, sum_list_with snd (fold_left (fun c x => counter_add c x 1%nat) ys c)
                    = (sum_list_with snd c + length ys)%nat) as H.
  { induction ys as [|y ys IH]; intros c; simpl; [lia|].
    rewrite IH, counter_add_sum. lia. }
  by rewrite H.
Qed.

Lemma counter_items_by_key {B : Type} (f : Outcome -> nat -> B) (c : Counter) :
  NoDup (counter_keys c) ->
  map (fun kn => f (fst kn) (snd kn)) c
  = map (fun k => f k (counter_get c k)) (counter_keys c).
Proof.
  induction c as [|[k1 m] c IH]; [done|]. cbn [map fst snd].
  intros [Hk1 Hnd]%NoDup_cons. f_equal.
  - simpl. by rewrite decide_True.
  - rewrite (IH Hnd). apply map_ext_in. intros k Hk. simpl.
    rewrite decide_False; [done|]. intros ->. apply Hk1. by apply list_elem_of_In.
Qed.

Lemma outcomes_NoDup_length (l : list Outcome) : NoDup l -> (length l <= 4)%nat.
Proof.
  intros Hnd.
  change 4%nat with (length [PASS; FAIL; ERROR; INCOMPLETE]).
  apply submseteq_length, NoDup_submseteq; [done|].
  intros [] _; set_solver.
Qed.

Section SubjectShape.
Variable str_datetime : datetime -> string.

Lemma render_github_snd (runs : list WorkflowStatus.t) (st : string * Counter) :
  snd (render_github str_datetime runs st)
  = snd (fold_left (github_step str_datetime) runs st).
Proof. by destruct runs. Qed.

Lemma render_appveyor_snd (builds : list AppveyorBuild.t) (st : string * Counter) :
  snd (render_appveyor str_datetime builds st)
  = snd (fold_left (appveyor_step str_datetime) builds st).
Proof. by destruct builds. Qed.

Lemma qtys_shape (r : DailyStatus.t) :
  NoDup (counter_keys (snd (render_sections str_datetime r)))
  /\ Forall (fun kn => (0 < snd kn)%nat) (snd (render_sections str_datetime r))
  /\ counter_keys (snd (render_sections str_datetime r))
     = first_seen (spec_counted_outcomes r).
Proof.
  unfold render_sections, spec_counted_outcomes. cbn [fst snd].
  rewrite render_appveyor_snd, app_assoc.
  apply (fold_tally_shape (appveyor_step str_datetime) snd spec_build_outcomes);
    [by intros [body qtys] x|..]; cbn [fst snd]; rewrite render_clients_snd;
    cbn [fst snd].
  all: pose proof (fold_tally_shape (client_step str_datetime) snd spec_client_outcomes
                     (client_step_tally str_datetime)
                     (DailyStatus.client_runs r)
                     (∅, fst (render_github str_datetime (DailyStatus.github_runs r)
                                (body_open, [])) +:+ body_clients,
                      snd (render_github str_datetime (DailyStatus.github_runs r)
                             (body_open, [])))
                     (concat (map spec_workflow_outcomes (DailyStatus.github_runs r))))
      as Hclients; cbn [fst snd] in Hclients.
  all: pose proof (fold_tally_shape (github_step str_datetime) snd spec_workflow_outcomes
                     (fun st x => match st with (body, qtys) => eq_refl end)
                     (DailyStatus.github_runs r) (body_open, []) []
                     (NoDup_nil_2 : NoDup (counter_keys (snd (body_open, []))))
                     (Forall_nil_2 _) eq_refl)
      as (Hg1 & Hg2 & Hg3); cbn [fst snd app] in Hg1, Hg2, Hg3.
  all: rewrite <- render_github_snd in Hg1, Hg2, Hg3.
  all: destruct (Hclients Hg1 Hg2 Hg3) as (Hc1 & Hc2 & Hc3); done.
Qed.

(** X15: the counter behind the subject.  Its keys are the outcomes that
    occur among the counted jobs, tests and client errors, each once, in
    the order in which they are first met (hosted jobs first, then the
    client entries, then the Appveyor jobs); every count is positive;
    the counts add up to the number of counted outcomes; and there are
    at most four keys. *)
Theorem subject_counter_shape (r : DailyStatus.t) :
  let qtys := snd (render_sections str_datetime r) in
  map fst qtys = reverse (remove_dups (reverse (spec_counted_outcomes r)))
  /\ NoDup (map fst qtys)
  /\ Forall (fun kn => (0 < snd kn)%nat) qtys
  /\ sum_list_with snd qtys = length (spec_counted_outcomes r)
  /\ (length qtys <= 4)%nat.
Proof.
  intros qtys. destruct (qtys_shape r) as (Hnd & Hpos & Hkeys).
  split; [exact Hkeys|]. split; [exact Hnd|]. split; [exact Hpos|]. split.
  - subst qtys. unfold render_sections, spec_counted_outcomes. cbn [fst snd].
    rewrite render_appveyor_snd.
    assert (forall {A St : Type} (step : St -> A -> St) (qtys_of : St -> Counter)
                   (outs : A -> list Outcome),
              (forall st x, qtys_of (step st x)
                            = Counter_update (qtys_of st) (Counter_of (outs x))) ->
              forall xs st,
                sum_list_with snd (qtys_of (fold_left step xs st))
                = (sum_list_with snd (qtys_of st) + length (concat (map outs xs)))%nat)
      as Hsum.
    { intros A St step qtys_of outs Hstep xs.
      induction xs as [|x xs IH]; intros st; simpl; [lia|].
      rewrite IH, Hstep, Counter_update_sum, Counter_of_sum, length_app. lia. }
    rewrite (Hsum _ _ (appveyor_step str_datetime) snd spec_build_outcomes)
      by by intros [body q] x.
    cbn [fst snd]. rewrite render_clients_snd. cbn [fst snd].
    rewrite (Hsum _ _ (client_step str_datetime) snd spec_client_outcomes
               (client_step_tally str_datetime)).
    cbn [fst snd]. rewrite render_github_snd.
    rewrite (Hsum _ _ (github_step str_datetime) snd spec_workflow_outcomes)
      by by intros [body q] x.
    cbn [fst snd]. rewrite !length_app. simpl. lia.
  - rewrite <- (length_map fst). by apply outcomes_NoDup_length.
Qed.

(** X16: the subject in closed form.  When some outcome is counted, the
    subject is the repository name and [daily summary:] followed by one
    item [<count> <VALUE>] for each outcome that occurs, in the order of
    first occurrence, where the count is the number of occurrences, the
    items being separated by a comma and a space; the absence count
    follows when it is not zero. *)
Theorem subject_closed_form (r : DailyStatus.t) :
  spec_counted_outcomes r <> [] ->
  fst (get_subject_body str_datetime r)
  = "datalad/git-annex daily summary: "
      +:+ join ", "
            (map (fun oc =>
                    pretty (count_occ Outcome_eq_dec (spec_counted_outcomes r) oc)
                      +:+ " " +:+ value oc)
               (reverse (remove_dups (reverse (spec_counted_outcomes r)))))
      +:+ (if decide (absent r = 0%nat) then EmptyString
           else ", " +:+ pretty (absent r) +:+ " ABSENT").
Proof.
  intros Hne. rewrite (subject_with_counts str_datetime r Hne).
  destruct (qtys_shape r) as (Hnd & _ & Hkeys).
  assert (counts_subject (snd (render_sections str_datetime r))
          = "datalad/git-annex daily summary: "
              +:+ join ", "
                    (map (fun oc =>
                            pretty (count_occ Outcome_eq_dec (spec_counted_outcomes r) oc)
                              +:+ " " +:+ value oc)
                       (reverse (remove_dups (reverse (spec_counted_outcomes r))))))
    as ->.
  { unfold counts_subject.
    rewrite (counter_items_by_key (fun k n => pretty n +:+ " " +:+ value k) _ Hnd).
    rewrite Hkeys. change WORKFLOW_REPO with "datalad/git-annex".
    rewrite <- append_assoc. f_equal. f_equal.
    apply map_ext. intros oc. by rewrite qtys_get. }
  destruct (decide (absent r = 0%nat)); [by rewrite append_nil_r|].
  by rewrite append_assoc.
Qed.

End SubjectShape.

(** ** Nothing absent *)

(** X17: the absence count is zero exactly when every workflow file has
    a run in the report and every known client has an entry; entries of
    clients that are not known, and runs of other files, do not count.
    It is at most three plus the number of known clients. *)
Theorem nothing_absent_iff_all_present (r : DailyStatus.t) :
  (absent r = 0%nat
   <-> (forall f, f ∈ WORKFLOWS ->
                  f ∈ map WorkflowStatus.file (DailyStatus.github_runs r))
       /\ (forall c, c ∈ DailyStatus.all_clients r ->
                     c ∈ map client_id (DailyStatus.client_runs r)))
  /\ (absent r <= 3 + size (DailyStatus.all_clients r))%nat.
Proof.
  unfold absent, missing_workflows, missing_clients. split.
  - rewrite Nat.eq_add_0, !size_empty_iff. split.
    + intros [Hw Hc]. split.
      * intros f Hf. destruct (decide (f ∈ map WorkflowStatus.file
                                          (DailyStatus.github_runs r))) as [|Hn]; [done|].
        exfalso. apply (not_elem_of_empty (C := gset string) f), Hw.
        rewrite elem_of_difference, !elem_of_list_to_set. done.
      * intros c Hc'. destruct (decide (c ∈ map client_id
                                           (DailyStatus.client_runs r))) as [|Hn]; [done|].
        exfalso. apply (not_elem_of_empty (C := gset string) c), Hc.
        rewrite elem_of_difference, elem_of_list_to_set. done.
    + intros [Hw Hc]. split; intros x; rewrite elem_of_difference, ?elem_of_list_to_set;
        (split; [|by intros ?%not_elem_of_empty]).
      * intros [Hx Hn]. exfalso. apply Hn, Hw, Hx.
      * intros [Hx Hn]. exfalso. apply Hn, Hc, Hx.
  - apply Nat.add_le_mono.
    + etrans; [apply subseteq_size, subseteq_difference_l; reflexivity|].
      rewrite size_list_to_set by apply NoDup_WORKFLOWS. done.
    + apply subseteq_size, subseteq_difference_l. reflexivity.
Qed.

(** ** [main] as a whole *)

Section MainProperties.
Variable str_datetime : datetime -> string.
Variable isoparse : string -> result datetime.
Variable s : Session.

Lemma count_occ_concat_none {A : Type} (outs : A -> list Outcome) (xs : list A)
    (oc : Outcome) :
  Forall (fun x => Forall (fun o => o <> oc) (outs x)) xs ->
  count_occ Outcome_eq_dec (concat (map outs xs)) oc = 0%nat.
Proof.
  induction 1 as [|x xs Hx _ IH]; [done|]. simpl. rewrite count_occ_app, IH.
  rewrite Nat.add_0_r. apply count_occ_not_In. intros Hin.
  rewrite Forall_forall in Hx. apply (Hx oc); [by apply list_elem_of_In|done].
Qed.

Lemma count_client_errors (runs : list ClientEntry) :
  Forall (fun e =>
            match e with
            | Status c =>
                Forall (fun kv => snd kv = PASS \/ snd kv = FAIL) (ClientStatus.tests c)
            | ProcessError _ => True
            end) runs ->
  count_occ Outcome_eq_dec (concat (map spec_client_outcomes runs)) ERROR
  = length (List.filter is_process_error runs).
Proof.
  induction 1 as [|e runs He _ IH]; [done|]. simpl. rewrite count_occ_app, IH.
  destruct e as [c|pe]; simpl; [|done].
  replace (count_occ _ _ _) with 0%nat; [done|].
  symmetry. apply count_occ_not_In. intros Hin%list_elem_of_In.
  apply list_elem_of_fmap in Hin as (kv & Hkv & Hin).
  rewrite Forall_forall in He. destruct (He kv Hin) as [?|?]; congruence.
Qed.

Lemma from_appveyor_status_not_error (status : string) (oc : Outcome) :
  from_appveyor_status status = Ok oc -> oc <> ERROR.
Proof.
  unfold from_appveyor_status.
  change (Outcome_getattr "PASS") with (Ok PASS).
  change (Outcome_getattr "FAIL") with (Ok FAIL).
  change (Outcome_getattr "INCOMPLETE") with (Ok INCOMPLETE).
  destruct (String.eqb status "success"); [by intros [= <-]|].
  destruct (String.eqb status "failed"); [by intros [= <-]|].
  destruct (String.eqb status "cancelled"); [by intros [= <-]|done].
Qed.

Lemma make_appveyor_job_shape (build_id : Z) (job : RawAppveyorJob.t)
    (j : AppveyorJob.t) :
  make_appveyor_job build_id job = Ok j ->
  AppveyorJob.outcome j <> ERROR /\ AppveyorJob.build_id j = build_id.
Proof.
  unfold make_appveyor_job.
  destruct (from_appveyor_status _) as [oc|?] eqn:Hoc; cbn [bind]; [|done].
  intros [= <-]. split; [|done]. by apply from_appveyor_status_not_error in Hoc.
Qed.

Lemma make_appveyor_build_jobs (b : RawBuild.t) (ab : AppveyorBuild.t) :
  make_appveyor_build isoparse s b = Ok ab ->
  Forall (fun o => o <> ERROR) (spec_build_outcomes ab)
  /\ Forall (fun j => AppveyorJob.build_id j = AppveyorBuild.id ab)
       (AppveyorBuild.jobs ab)
  /\ AppveyorBuild.outcome ab <> ERROR.
Proof.
  unfold make_appveyor_build.
  destruct (build s _) as [data|?]; cbn [bind]; [|done].
  destruct (from_appveyor_status _) as [oc|?] eqn:Hoc; cbn [bind]; [|done].
  destruct (isoparse _) as [ts|?]; cbn [bind]; [|done].
  destruct (mapM _ data) as [js|?] eqn:Hjs; cbn [bind]; [|done].
  intros [= <-]. unfold spec_build_outcomes. simpl.
  assert (Forall (fun j => AppveyorJob.outcome j <> ERROR
                           /\ AppveyorJob.build_id j = RawBuild.buildId b) js) as Hall.
  { eapply mapM_Forall; [|exact Hjs].
    intros job j _ Hj. by apply make_appveyor_job_shape in Hj. }
  split; [|split].
  - apply Forall_fmap. eapply Forall_impl; [exact Hall|]. by intros j [? _].
  - eapply Forall_impl; [exact Hall|]. by intros j [_ ?].
  - by apply from_appveyor_status_not_error in Hoc.
Qed.

Lemma appveyor_loop_builds (cutoff : datetime) (fuel : nat)
    (builds : list AppveyorBuild.t) :
  appveyor_loop isoparse s cutoff fuel = Some (Ok builds) ->
  Forall (fun ab =>
            Forall (fun o => o <> ERROR) (spec_build_outcomes ab)
            /\ Forall (fun j => AppveyorJob.build_id j = AppveyorBuild.id ab)
                 (AppveyorBuild.jobs ab)
            /\ AppveyorBuild.outcome ab <> ERROR) builds.
Proof.
  unfold appveyor_loop, appveyor_scan.
  apply for_each_invariant; [|constructor].
  intros acc b fl acc' Hacc. unfold appveyor_body.
  destruct (RawBuild.finished b) as [text|]; [|by intros [= _ <-]].
  destruct (isoparse text) as [finished|?]; cbn [bind]; [|done].
  destruct (datetime_le _ _) as [[|]|?]; cbn [bind]; [by intros [= _ <-]| |done].
  destruct (make_appveyor_build isoparse s b) as [ab|?] eqn:Hab; cbn [bind]; [|done].
  intros [= _ <-]. apply Forall_app. split; [done|]. apply Forall_singleton.
  by apply (make_appveyor_build_jobs b).
Qed.

Lemma client_loop_tests (cutoff : datetime) (entries : list ClientEntry) :
  client_loop s cutoff = Some (Ok entries) ->
  Forall (fun e =>
            match e with
            | Status c =>
                Forall (fun kv => snd kv = PASS \/ snd kv = FAIL) (ClientStatus.tests c)
            | ProcessError _ => True
            end) entries.
Proof.
  unfold client_loop.
  destruct (workflow s CLIENTS_REPO CLIENTS_WORKFLOW) as [[wfname runs]|?]; [|done].
  apply for_each_invariant; [|constructor].
  intros acc run fl acc' Hacc. rewrite client_run_body_eq.
  destruct (client_considers run); [|by intros [= _ <-]].
  destruct (datetime_le _ _) as [[|]|?]; cbn [bind]; [by intros [= _ <-]| |done].
  destruct (make_client_entry s run) as [e|?] eqn:He; cbn [bind]; [|done].
  intros [= _ <-]. apply Forall_app. split; [done|]. apply Forall_singleton.
  apply make_client_entry_shape in He as (m1 & m2 & _ & _ & _ & _ & Hkind).
  destruct e; [|done]. by destruct Hkind as (_ & _ & ?).
Qed.

(** X18: in a report that [main] builds, [ERRORED] counts the client
    errors and nothing else.  No conclusion of a hosted run or job and no
    Appveyor status classifies as [ERROR] without raising, and a test is
    [PASS] or [FAIL], so the count of [ERROR] in the counter behind the
    subject is the number of client runs whose result processing
    failed.  The known clients of the report are those given to [main],
    every Appveyor job carries the identifier of its build, and what
    [main] prints and writes is the subject and body of that report. *)
Theorem main_errored_counts_client_errors (now_utc : Z) (all_clients : gset string)
    (fuel : nat) (r : DailyStatus.t) :
  main_status isoparse s now_utc all_clients fuel = Some (Ok r) ->
  counter_get (snd (render_sections str_datetime r)) ERROR
  = length (List.filter is_process_error (DailyStatus.client_runs r))
  /\ DailyStatus.all_clients r = all_clients
  /\ Forall (fun ab =>
               Forall (fun j => AppveyorJob.build_id j = AppveyorBuild.id ab)
                 (AppveyorBuild.jobs ab)) (DailyStatus.appveyor_builds r)
  /\ main isoparse s str_datetime now_utc all_clients fuel
     = Some (Ok (get_subject_body str_datetime r)).
Proof.
  intros Hmain.
  assert (main isoparse s str_datetime now_utc all_clients fuel
          = Some (Ok (get_subject_body str_datetime r))) as Hout.
  { unfold main. by rewrite Hmain. }
  revert Hmain. unfold main_status.
  destruct (github_loop _ _ _ _ _) as [[github_statuses|?]|] eqn:Hgithub; [|done|done].
  destruct (client_loop _ _) as [[client_statuses|?]|] eqn:Hclients; [|done|done].
  destruct (appveyor_loop _ _ _ _) as [[appveyor_builds|?]|] eqn:Happveyor;
    [|done|done].
  intros [= <-]. cbn [DailyStatus.all_clients DailyStatus.client_runs
                        DailyStatus.appveyor_builds].
  apply appveyor_loop_builds in Happveyor.
  apply client_loop_tests in Hclients.
  apply (github_loop_invariant isoparse s (cutoff_at now_utc)
           (fun _ w => Forall (fun o => o <> ERROR) (spec_workflow_outcomes w)))
    in Hgithub as (added & -> & Hadded).
  - split; [|split; [done|split; [|done]]].
    + rewrite qtys_get. unfold spec_counted_outcomes.
      cbn [DailyStatus.github_runs DailyStatus.client_runs DailyStatus.appveyor_builds].
      rewrite !count_occ_app, (count_client_errors _ Hclients).
      rewrite (count_occ_concat_none spec_workflow_outcomes) by done.
      rewrite (count_occ_concat_none spec_build_outcomes); [lia|].
      eapply Forall_impl; [exact Happveyor|]. by intros ab (? & _).
    + eapply Forall_impl; [exact Happveyor|]. by intros ab (_ & ? & _).
  - done.
  - intros f fs wfname run w _ _ Hw.
    apply make_workflow_status_shape in Hw as (_ & _ & _ & Hjobs).
    unfold spec_workflow_outcomes. by apply Forall_fmap.
Qed.

End MainProperties.

(** ** A history that never ends *)

(** X19: the Appveyor loop ends only when the history does or when a
    build is old enough.  If the service answers every request, whatever
    the cursor, with the same non-empty page of builds without a finish
    timestamp, then no number of page requests lets the loop finish: it
    neither returns a list nor raises. *)
Theorem appveyor_loop_needs_history_to_end (isoparse : string -> result datetime)
    (s : Session) (cutoff : datetime) (page : list RawBuild.t) :
  page <> [] ->
  (forall startBuildId, history s startBuildId = Ok page) ->
  Forall (fun x => RawBuild.finished x = None) page ->
  forall fuel, appveyor_loop isoparse s cutoff fuel = None.
Proof.
  intros Hne Hpage Hunfinished fuel. unfold appveyor_loop, appveyor_scan.
  generalize (@None Z) as startBuildId.
  induction fuel as [|fuel IH]; intros startBuildId; [done|].
  cbn [get_appveyor_builds]. rewrite Hpage.
  destruct page as [|b bs] eqn:Hp; [done|]. rewrite <- Hp in *.
  rewrite (appveyor_scan_prefix isoparse s cutoff page _ []).
  - replace (filter (fun x => is_Some (RawBuild.finished x)) page) with (@nil RawBuild.t).
    + apply IH.
    + symmetry. clear -Hunfinished.
      induction Hunfinished as [|x page Hx _ IH]; [done|].
      rewrite filter_cons_False; [done|]. rewrite Hx. by intros [].
  - eapply Forall_impl; [exact Hunfinished|]. intros x Hx. by left.
Qed.

(** * The further properties on sample values *)

Import Samples.


Lemma client_test_outcomes_shape_witness :
  archive hub "zip/900" = Ok good_archive
  /\ get_client_test_outcomes hub "zip/900" = Ok [("fsck", FAIL); ("sync", FAIL)]
  /\ NoDup (map fst [("fsck", FAIL); ("sync", FAIL)])
  /\ Forall (fun kv : string * Outcome => snd kv = PASS \/ snd kv = FAIL)
       [("fsck", FAIL); ("sync", FAIL)].
Proof.
  pose proof (client_test_outcomes_shape hub "zip/900" good_archive
                [("fsck", FAIL); ("sync", FAIL)] eq_refl eq_refl) as (Hnd & Hpf & _).
  exact (conj eq_refl (conj eq_refl (conj Hnd Hpf))).
Defined.



Lemma fresh_or_skipped_client_runs :
  Forall (fun run =>
            client_considers run = true ->
            datetime_le (ensure_aware (Run.created_at run)) limit = Ok false) client_runs.
Proof. repeat constructor. Qed.

Lemma client_loop_scan_witness :
  client_considers client_old = true
  /\ datetime_le (ensure_aware (Run.created_at client_old)) limit = Ok true
  /\ fullmatch_result (Run.head_branch client_old) = None
  /\ client_loop hub limit
     = Some (Ok [Status
                   {| ClientStatus.client_id := "alpha";
                      ClientStatus.build_id := 43;
                      ClientStatus.timestamp := {| wall := 2000; utcoffset := Some 0 |};
                      ClientStatus.artifact_url :=
                        "https://github.com/datalad/git-annex-ci-client-jobs/suites/1013/artifacts/900";
                      ClientStatus.tests := [("fsck", FAIL); ("sync", FAIL)] |};
                 ProcessError
                   {| ResultProcessError.client_id := "beta";
                      ResultProcessError.build_id := 7;
                      ResultProcessError.timestamp := {| wall := 2000; utcoffset := Some 0 |};
                      ResultProcessError.url := "runs/12" |}]).
Proof.
  pose proof (client_loop_scan hub limit client_runs client_old
                (Fail (HTTPError "page 2")) "Handle result"
                fresh_or_skipped_client_runs eq_refl eq_refl) as (_ & _ & Hloop).
  specialize (Hloop eq_refl). vm_compute in Hloop.
  exact (conj eq_refl (conj eq_refl (conj eq_refl Hloop))).
Defined.

Lemma client_loop_entries_witness :
  exists entries,
    client_loop hub limit = Some (Ok entries)
    /\ length entries = 2%nat
    /\ Forall (fun e =>
                 datetime_le (client_timestamp e) limit = Ok false
                 /\ client_id e <> EmptyString
                 /\ 0 <= client_build_id e) entries.
Proof.
  eexists. split; [reflexivity|]. split; [reflexivity|].
  eapply Forall_impl; [exact (client_loop_entries hub limit _ eq_refl)|].
  intros e (Hnew & _ & Hid & Hbuild & _). exact (conj Hnew (conj Hid Hbuild)).
Defined.

Lemma passing_client_run_needs_one_artifact_witness :
  Run.status (run "completed" "push" "success" "result-alpha-43" fresh 13) = "completed"
  /\ fullmatch_result "result-alpha-43" = Some ("alpha", "43")
  /\ client_run_body hub limit []
       (run "completed" "push" "success" "result-alpha-43" fresh 13)
     = Ok (Continue,
           [Status
              {| ClientStatus.client_id := "alpha";
                 ClientStatus.build_id := 43;
                 ClientStatus.timestamp := {| wall := 2000; utcoffset := Some 0 |};
                 ClientStatus.artifact_url :=
                   "https://github.com/datalad/git-annex-ci-client-jobs/suites/1013/artifacts/900";
                 ClientStatus.tests := [("fsck", FAIL); ("sync", FAIL)] |}])
  /\ exists msg arg,
       client_run_body hub limit []
         (run "completed" "push" "success" "result-alpha-44" fresh 15)
       = Raise (ValueError msg arg).
Proof.
  pose proof (passing_client_run_needs_one_artifact hub limit []
                (run "completed" "push" "success" "result-alpha-43" fresh 13)
                "alpha" "43" eq_refl eq_refl eq_refl eq_refl) as (Hone & _).
  specialize (Hone the_artifact [("fsck", FAIL); ("sync", FAIL)] eq_refl eq_refl).
  pose proof (passing_client_run_needs_one_artifact hub limit []
                (run "completed" "push" "success" "result-alpha-44" fresh 15)
                "alpha" "44" eq_refl eq_refl eq_refl eq_refl) as (_ & Hnone).
  assert (length (@nil Artifact.t) <> 1%nat) as Hlen by discriminate.
  specialize (Hnone [] eq_refl Hlen).
  vm_compute in Hone.
  exact (conj eq_refl (conj eq_refl (conj Hone Hnone))).
Defined.

Lemma fresh_or_skipped_hosted_runs :
  Forall (fun run =>
            github_considers run = true ->
            datetime_le (ensure_aware (Run.created_at run)) limit = Ok false) hosted_runs.
Proof. repeat constructor; discriminate. Qed.

Lemma github_runs_scan_witness :
  github_considers hosted_old = true
  /\ datetime_le (ensure_aware (Run.created_at hosted_old)) limit = Ok true
  /\ map github_considers hosted_runs = [false; false; true]
  /\ exists w,
       for_each (github_run_body Examples.parse hub limit "build-ubuntu.yaml"
                   "Build on Ubuntu")
         (yield_from hosted_runs (Yield hosted_old Pending)) []
       = Some (Ok [w])
       /\ WorkflowStatus.build_id w = 2
       /\ map JobStatus.outcome (WorkflowStatus.jobs w) = [PASS; FAIL].
Proof.
  pose proof (github_runs_scan Examples.parse hub limit "build-ubuntu.yaml"
                "Build on Ubuntu" hosted_runs hosted_old Pending []
                fresh_or_skipped_hosted_runs eq_refl eq_refl) as (Hloop & _).
  vm_compute in Hloop.
  refine (conj eq_refl (conj eq_refl (conj eq_refl _))).
  eexists. split; [exact Hloop|]. split; reflexivity.
Defined.

Lemma github_loop_records_witness :
  exists github_statuses,
    github_loop Examples.parse hub limit WORKFLOWS [] = Some (Ok github_statuses)
    /\ length github_statuses = 1%nat
    /\ Forall (fun w =>
                 WorkflowStatus.file w ∈ WORKFLOWS
                 /\ datetime_le (WorkflowStatus.timestamp w) limit = Ok false
                 /\ WorkflowStatus.outcome w <> ERROR) github_statuses.
Proof.
  eexists. split; [reflexivity|]. split; [reflexivity|].
  eapply Forall_impl; [exact (github_loop_records Examples.parse hub limit _ eq_refl)|].
  intros w (Hfile & Hnew & _ & Hoc & _). exact (conj Hfile (conj Hnew Hoc)).
Defined.

Lemma timed_out_job_aborts_github_loop_witness :
  github_considers hosted_timed_out = true
  /\ jobs hub (Run.jobs_url hosted_timed_out)
     = Ok ([job "build" "success"] ++ job "test" "timed_out" :: [job "upload" "skipped"])%list
  /\ github_run_body Examples.parse hub limit "build-ubuntu.yaml" "Build on Ubuntu" []
       hosted_timed_out
     = Raise (AttributeError "Outcome" "ERRROR").
Proof.
  assert (Forall (fun j' => exists js, make_job_status Examples.parse j' = Ok js)
            [job "build" "success"]) as Hbefore.
  { constructor; [|constructor]. by eexists. }
  pose proof (timed_out_job_aborts_github_loop Examples.parse hub limit
                "build-ubuntu.yaml" "Build on Ubuntu" [] hosted_timed_out Stop
                [job "build" "success"] [job "upload" "skipped"]
                (job "test" "timed_out") {| wall := 1500; utcoffset := Some 0 |}
                eq_refl eq_refl eq_refl Hbefore eq_refl eq_refl) as (Hbody & _).
  exact (conj eq_refl (conj eq_refl Hbody)).
Defined.

Lemma appveyor_history_pages_witness :
  served hub None
    [[Examples.raw_build 8 (Some "5000"); Examples.raw_build 7 None];
     [Examples.raw_build 6 (Some "3000")]]
  /\ next_cursor None
       [[Examples.raw_build 8 (Some "5000"); Examples.raw_build 7 None];
        [Examples.raw_build 6 (Some "3000")]] = Some 6
  /\ get_appveyor_builds hub 3 None
     = Yield (Examples.raw_build 8 (Some "5000"))
         (Yield (Examples.raw_build 7 None)
            (Yield (Examples.raw_build 6 (Some "3000")) Stop)).
Proof.
  assert (served hub None
            [[Examples.raw_build 8 (Some "5000"); Examples.raw_build 7 None];
             [Examples.raw_build 6 (Some "3000")]]) as Hserved.
  { exact (conj eq_refl (conj eq_refl I)). }
  pose proof (appveyor_history_pages Examples.parse hub limit _ Hserved)
    as (_ & Hend & _).
  specialize (Hend eq_refl).
  exact (conj Hserved (conj eq_refl Hend)).
Defined.

Lemma subject_closed_form_witness :
  spec_counted_outcomes Examples.report_error_then_run <> []
  /\ fst (get_subject_body Examples.show Examples.report_error_then_run)
     = "datalad/git-annex daily summary: 1 ERRORED, 1 PASSED, 1 FAILED, 3 ABSENT".
Proof.
  assert (spec_counted_outcomes Examples.report_error_then_run <> []) as Hne
    by discriminate.
  pose proof (subject_closed_form Examples.show Examples.report_error_then_run Hne)
    as Hsubject.
  vm_compute in Hsubject.
  exact (conj Hne Hsubject).
Defined.

Lemma main_errored_counts_client_errors_witness :
  exists r,
    main_status Examples.parse hub 86400001000 {["alpha"; "gamma"]} 3 = Some (Ok r)
    /\ counter_get (snd (render_sections Examples.show r)) ERROR = 1%nat
    /\ fst (get_subject_body Examples.show r)
       = "datalad/git-annex daily summary: 1 PASSED, 5 FAILED, 1 ERRORED, 3 ABSENT".
Proof.
  eexists. split; [reflexivity|].
  pose proof (main_errored_counts_client_errors Examples.show Examples.parse hub
                86400001000 {["alpha"; "gamma"]} 3 _ eq_refl) as (Hcount & _).
  split; [exact Hcount|]. vm_compute. reflexivity.
Defined.

Lemma appveyor_loop_needs_history_to_end_witness :
  [Examples.raw_build 9 None] <> []
  /\ appveyor_loop Examples.parse endless limit 50 = None.
Proof.
  assert ([Examples.raw_build 9 None] <> []) as Hne by discriminate.
  assert (Forall (fun x => RawBuild.finished x = None) [Examples.raw_build 9 None])
    as Hunfinished by (repeat constructor).
  exact (conj Hne
           (appveyor_loop_needs_history_to_end Examples.parse endless limit
              [Examples.raw_build 9 None] Hne (fun _ => eq_refl) Hunfinished 50%nat)).
Defined.
